(** * Gourde: a verification model of [gourde/gourde.py]

    The development embeds the [Gourde] class (a wrapper around a Flask
    application) as state-passing functions over an explicit object and
    process state.  Python exceptions are results of the computations, so a
    [try]/[except] of the source is a function on outcomes, and side effects
    survive a raise as they do in Python. *)

From Stdlib Require Import ZArith String Ascii DecimalString Lia.
From stdpp Require Import base option list strings gmap.

Local Open Scope string_scope.
Local Open Scope Z_scope.

(** ** Python values and exceptions *)

(** The values the modelled attributes and return values range over. *)
Inductive pyval :=
| VNone
| VBool (b : bool)
| VInt (z : Z)
| VStr (s : string).

#[global] Instance pyval_eq_dec : EqDecision pyval.
Proof. solve_decision. Defined.

(** Truth value testing, as [if x:] and [not x] use it. *)
Definition truthy (v : pyval) : bool :=
  match v with
  | VNone => false
  | VBool b => b
  | VInt z => negb (z =? 0)
  | VStr s => negb (String.eqb s "")
  end.

Definition of_str (o : option string) : pyval := from_option VStr VNone o.

(** Exception classes: the builtin ones the code meets, those of
    [pkg_resources], and subclasses declared by user code, such as
    [class Error(Exception)] of this module. *)
Inductive exc_class :=
| BaseException
| SystemExit
| KeyboardInterrupt
| Exception
| TypeError
| ValueError
| AssertionError
| AttributeError
| ResolutionError
| DistributionNotFound
| VersionConflict
| Subclass (cls_name : string) (parent : exc_class).

#[global] Instance exc_class_eq_dec : EqDecision exc_class.
Proof. solve_decision. Defined.

(** The class itself followed by its bases, most specific first. *)
Fixpoint mro (c : exc_class) : list exc_class :=
  c :: match c with
       | BaseException => []
       | SystemExit | KeyboardInterrupt | Exception => [BaseException]
       | TypeError | ValueError | AssertionError | AttributeError
       | ResolutionError =>
           [Exception; BaseException]
       | DistributionNotFound | VersionConflict =>
           [ResolutionError; Exception; BaseException]
       | Subclass _ p => mro p
       end.

Definition issubclass (c d : exc_class) : bool := bool_decide (d ∈ mro c).

(** [class Error(Exception)]: all local errors. *)
Definition Error : exc_class := Subclass "Error" Exception.

(** A raised exception: its class and what [str(e)] gives. *)
Record exn := mkExn { exc_type : exc_class; exc_str : string }.

#[global] Instance exn_eq_dec : EqDecision exn.
Proof. solve_decision. Defined.

Definition isinstance (e : exn) (c : exc_class) : bool :=
  issubclass (exc_type e) c.

Definition str (e : exn) : string := exc_str e.

(** The outcome of a call: a returned value or a raised exception. *)
Inductive outcome (A : Type) :=
| Ret (a : A)
| Raise (e : exn).
Arguments Ret {A} a.
Arguments Raise {A} e.

Definition raised {A} (o : outcome A) : option exc_class :=
  match o with
  | Ret _ => None
  | Raise e => Some (exc_type e)
  end.

(** ** The logging library, as far as the code drives it *)

Inductive Stream := stdout | stderr.

#[global] Instance Stream_eq_dec : EqDecision Stream.
Proof. solve_decision. Defined.

(** [logging.StreamHandler()] writes to [sys.stderr]; the formatter is the
    format string given to [setFormatter]. *)
Record Handler := mkHandler { h_stream : Stream; h_format : option string }.

(** One accepted call of a logging method on the logger. *)
Record LogRecord := mkLogRecord {
  levelno : Z;
  message : pyval;
  exc_info : bool
}.

Record Logger := mkLogger {
  propagate : bool;
  handlers : list Handler;
  lg_level : Z;
  records : list LogRecord
}.

Definition CRITICAL := 50.
Definition ERROR := 40.
Definition WARNING := 30.
Definition INFO := 20.
Definition DEBUG := 10.
Definition NOTSET := 0.

(** The level names [logging] registers at import. *)
Definition _nameToLevel : gmap string Z :=
  list_to_map
    [("CRITICAL", CRITICAL); ("FATAL", CRITICAL); ("ERROR", ERROR);
     ("WARN", WARNING); ("WARNING", WARNING); ("INFO", INFO);
     ("DEBUG", DEBUG); ("NOTSET", NOTSET)].

(** [logging.getLevelName] on a string: the number of a registered name,
    and the text ["Level " + name] for any other string. *)
Definition getLevelName (level : string) : pyval :=
  match _nameToLevel !! level with
  | Some n => VInt n
  | None => VStr ("Level " ++ level)
  end.

(** [logging._checkLevel], which [Logger.setLevel] applies to its argument. *)
Definition _checkLevel (level : pyval) : outcome Z :=
  match level with
  | VInt n => Ret n
  | VBool b => Ret (Z.b2z b)
  | VStr s =>
      match _nameToLevel !! s with
      | Some n => Ret n
      | None => Raise (mkExn ValueError ("Unknown level: '" ++ s ++ "'"))
      end
  | VNone => Raise (mkExn TypeError "Level not an integer or a valid string")
  end.

(** ** The web engine, the metrics exporter and the reactor *)

(** View functions: the bound methods this [Gourde] registers, and views of
    other owners (the engine's static files, the exporter, the host service),
    told apart by name. *)
Inductive view :=
| view_status
| view_healthy
| view_ready
| view_favicon
| view_other (owner : string).

#[global] Instance view_eq_dec : EqDecision view.
Proof. solve_decision. Defined.

(** What a view hands back to the engine: a body, a [(body, status)] pair,
    or the engine's own answer for a file of a directory. *)
Inductive view_result :=
| Body (body : string)
| BodyStatus (body : string) (status : Z)
| SendFromDirectory (directory : option string) (filename mimetype : string).

(** The [flask.Flask] object [self.app] refers to. *)
Record Flask := mkFlask {
  name : string;
  static_folder : option string;
  url_map : list (string * string);
  view_functions : gmap string view;
  config : gmap string pyval;
  logger : Logger;
  sentry : option string
}.

Definition has_static_folder (a : Flask) : bool :=
  bool_decide (static_folder a ≠ None).

(** [flask.Flask(name)]: the static folder defaults to ['static'] and its
    route is installed by the engine; the engine's other defaults play no
    part here. *)
Definition Flask_new (import_name : string) : Flask :=
  {| name := import_name;
     static_folder := Some "static";
     url_map := [("/static/<path:filename>", "static")];
     view_functions := {[ "static" := view_other "flask.static" ]};
     config := ∅;
     logger := mkLogger false [] NOTSET [];
     sentry := None |}.

(** One info metric of the exporter: name, description and labels. *)
Record InfoMetric := mkInfo {
  info_name : string;
  info_description : string;
  info_labels : list (string * string)
}.

(** The [PrometheusMetrics] handle kept in [self.metrics]; [registry] is
    the collector registry it was given, [None] for the process default. *)
Record PrometheusMetrics := mkMetrics {
  registry : option string;
  infos : list InfoMetric
}.

(** One start of the reactor through [flask_twisted], with the pool size and
    log observer it starts with. *)
Record ReactorRun := mkReactorRun {
  rr_host : option string;
  rr_port : Z;
  rr_debug : bool;
  rr_options : list (string * pyval);
  rr_pool_size : Z;
  rr_log : option Stream
}.

(** The Twisted reactor of the process: the suggested size of its thread
    pool (10 unless changed), where its log goes, and the runs started. *)
Record Reactor := mkReactor {
  pool_size : Z;
  log_observer : option Stream;
  reactor_runs : list ReactorRun
}.

(** One call of the engine's own server, [Flask.run]. *)
Record ServerRun := mkServerRun {
  sr_host : option string;
  sr_port : Z;
  sr_debug : bool;
  sr_threaded : bool;
  sr_options : list (string * pyval)
}.

(** ** The object and the process *)

(** The attributes of [self]. *)
Record Gourde := mkGourde {
  app : Flask;
  host : option string;
  port : Z;
  debug : bool;
  log_level : option string;
  twisted : bool;
  threads : option Z;
  metrics : option PrometheusMetrics;
  is_setup : bool
}.

(** What the process supplies and records: the command line after the
    program name, the environment, whether [raven] could be imported
    ([Sentry] is [None] otherwise), the answer of
    [pkg_resources.require(name)[0].version], the reactor, the servers
    started, and whether a file name under a directory is a regular
    file. *)
Record Process := mkProcess {
  argv : list string;
  environ : gmap string string;
  Sentry : bool;
  require_version : string -> outcome string;
  reactor : Reactor;
  served : list ServerRun;
  isfile : string -> string -> bool
}.

Record State := mkState { self : Gourde; proc : Process }.

(** A computation: it runs on a state and leaves a state behind, whether it
    returns or raises. *)
Definition M (A : Type) : Type := State -> outcome A * State.

Definition ret {A} (a : A) : M A := fun s => (Ret a, s).
Definition raise {A} (e : exn) : M A := fun s => (Raise e, s).
Definition bind {A B} (m : M A) (k : A -> M B) : M B :=
  fun s => match m s with
           | (Ret a, s') => k a s'
           | (Raise e, s') => (Raise e, s')
           end.
Definition get : M State := fun s => (Ret s, s).
Definition modify (f : State -> State) : M unit := fun s => (Ret tt, f s).
Definition lift {A} (o : outcome A) : M A := fun s => (o, s).

#[global] Instance M_ret : MRet M := @ret.
#[global] Instance M_bind : MBind M := fun A B k m => bind m k.

(** [try: body / except cls as e: handler e]. *)
Definition try_except {A} (body : M A) (cls : exc_class)
    (handler : exn -> M A) : M A :=
  fun s => match body s with
           | (Raise e, s') =>
               if isinstance e cls then handler e s' else (Raise e, s')
           | r => r
           end.

(** Attribute stores. *)
Definition with_self (f : Gourde -> Gourde) (s : State) : State :=
  mkState (f (self s)) (proc s).

Definition set_app (a : Flask) (g : Gourde) : Gourde :=
  mkGourde a (host g) (port g) (debug g) (log_level g) (twisted g)
    (threads g) (metrics g) (is_setup g).
Definition set_host (v : option string) (g : Gourde) : Gourde :=
  mkGourde (app g) v (port g) (debug g) (log_level g) (twisted g)
    (threads g) (metrics g) (is_setup g).
Definition set_port (v : Z) (g : Gourde) : Gourde :=
  mkGourde (app g) (host g) v (debug g) (log_level g) (twisted g)
    (threads g) (metrics g) (is_setup g).
Definition set_debug (v : bool) (g : Gourde) : Gourde :=
  mkGourde (app g) (host g) (port g) v (log_level g) (twisted g)
    (threads g) (metrics g) (is_setup g).
Definition set_log_level (v : option string) (g : Gourde) : Gourde :=
  mkGourde (app g) (host g) (port g) (debug g) v (twisted g)
    (threads g) (metrics g) (is_setup g).
Definition set_twisted (v : bool) (g : Gourde) : Gourde :=
  mkGourde (app g) (host g) (port g) (debug g) (log_level g) v
    (threads g) (metrics g) (is_setup g).
Definition set_threads (v : option Z) (g : Gourde) : Gourde :=
  mkGourde (app g) (host g) (port g) (debug g) (log_level g) (twisted g)
    v (metrics g) (is_setup g).
Definition set_metrics (v : option PrometheusMetrics) (g : Gourde) : Gourde :=
  mkGourde (app g) (host g) (port g) (debug g) (log_level g) (twisted g)
    (threads g) v (is_setup g).
Definition set_is_setup (v : bool) (g : Gourde) : Gourde :=
  mkGourde (app g) (host g) (port g) (debug g) (log_level g) (twisted g)
    (threads g) (metrics g) v.

Definition with_app (f : Flask -> Flask) : State -> State :=
  with_self (fun g => set_app (f (app g)) g).

Definition with_logger (f : Logger -> Logger) : State -> State :=
  with_app (fun a => mkFlask (name a) (static_folder a) (url_map a)
                       (view_functions a) (config a) (f (logger a)) (sentry a)).

Definition with_reactor (f : Reactor -> Reactor) (s : State) : State :=
  let p := proc s in
  mkState (self s) (mkProcess (argv p) (environ p) (Sentry p)
                      (require_version p) (f (reactor p)) (served p)
                      (isfile p)).

Definition add_served (r : ServerRun) (s : State) : State :=
  let p := proc s in
  mkState (self s) (mkProcess (argv p) (environ p) (Sentry p)
                      (require_version p) (reactor p) (served p ++ [r])
                      (isfile p)).

(** ** Library calls on the state *)

(** The logging methods take the message as their first positional
    argument, [info(msg, *args)] and [exception(msg, *args)]; a call is
    given as the list of its positional arguments and is bound as Python
    binds it. *)
Definition Logger_log (fname : string) (lvl : Z) (exc : bool)
    (args : list pyval) : M unit :=
  match args with
  | [] =>
      raise (mkExn TypeError
               (fname ++ "() missing 1 required positional argument: 'msg'"))
  | msg :: _ =>
      modify (with_logger (fun l =>
        mkLogger (propagate l) (handlers l) (lg_level l)
          (records l ++ [mkLogRecord lvl msg exc])))
  end.

Definition Logger_info : list pyval -> M unit := Logger_log "info" INFO false.
Definition Logger_exception : list pyval -> M unit :=
  Logger_log "exception" ERROR true.

Definition Logger_set_propagate (b : bool) : M unit :=
  modify (with_logger (fun l =>
    mkLogger b (handlers l) (lg_level l) (records l))).

(** [addHandler] appends a handler that is not yet attached; the handler
    built by each call of [setup_logging] is a new object. *)
Definition Logger_addHandler (h : Handler) : M unit :=
  modify (with_logger (fun l =>
    mkLogger (propagate l) (handlers l ++ [h]) (lg_level l) (records l))).

Definition Logger_setLevel (level : pyval) : M unit :=
  n ← lift (_checkLevel level);
  modify (with_logger (fun l =>
    mkLogger (propagate l) (handlers l) n (records l))).

Definition config_set (key : string) (v : pyval) : M unit :=
  modify (with_app (fun a =>
    mkFlask (name a) (static_folder a) (url_map a) (view_functions a)
      (<[key := v]> (config a)) (logger a) (sentry a))).

(** [Flask.add_url_rule]: the rule joins the URL map, then the endpoint is
    bound to the view unless it is bound to another one already. *)
Definition Flask_add_url_rule (rule endpoint : string) (view_func : view)
    : M unit :=
  modify (with_app (fun a =>
    mkFlask (name a) (static_folder a) (url_map a ++ [(rule, endpoint)])
      (view_functions a) (config a) (logger a) (sentry a)));;
  s ← get;
  match view_functions (app (self s)) !! endpoint with
  | Some old_func =>
      if bool_decide (old_func ≠ view_func) then
        raise (mkExn AssertionError
          ("View function mapping is overwriting an existing endpoint function: "
             ++ endpoint))
      else ret tt
  | None =>
      modify (with_app (fun a =>
        mkFlask (name a) (static_folder a) (url_map a)
          (<[endpoint := view_func]> (view_functions a)) (config a)
          (logger a) (sentry a)))
  end.

(** [PrometheusMetrics(app, registry=registry)]: the exporter installs its
    scrape route on the application and hands back the handle. *)
Definition PrometheusMetrics_new (registry : option string)
    : M PrometheusMetrics :=
  Flask_add_url_rule "/metrics" "prometheus_metrics"
    (view_other "prometheus_metrics");;
  ret (mkMetrics registry []).

(** [self.metrics.info(name, description, **labels)]. *)
Definition metrics_info (nm description : string)
    (labels : list (string * string)) : M unit :=
  s ← get;
  match metrics (self s) with
  | Some m =>
      modify (with_self (set_metrics
        (Some (mkMetrics (registry m)
                 (infos m ++ [mkInfo nm description labels])))))
  | None =>
      raise (mkExn AttributeError
               "'NoneType' object has no attribute 'info'")
  end.

(** [pkg_resources.require(name)[0].version]. *)
Definition pkg_require_version (nm : string) : M string :=
  fun s => (require_version (proc s) nm, s).

(** [Sentry(dsn=dsn).init_app(self.app)]. *)
Definition Sentry_init_app (dsn : string) : M unit :=
  modify (with_app (fun a =>
    mkFlask (name a) (static_folder a) (url_map a) (view_functions a)
      (config a) (logger a) (Some dsn))).

(** [reactor.suggestThreadPoolSize(size)] adjusts the maximum of the
    reactor's pool, whose minimum is 0; the pool asserts that the minimum
    does not exceed the maximum. *)
Definition reactor_suggestThreadPoolSize (size : Z) : M unit :=
  if size <? 0
  then raise (mkExn AssertionError "minimum is greater than maximum")
  else modify (with_reactor (fun r =>
         mkReactor size (log_observer r) (reactor_runs r))).

Definition log_startLogging (f : Stream) : M unit :=
  modify (with_reactor (fun r =>
    mkReactor (pool_size r) (Some f) (reactor_runs r))).

(** Whether [**options] repeats one of the keywords a call also gives
    explicitly; Python then refuses the call with [TypeError]. *)
Definition keyword_collision (explicit : list string)
    (options : list (string * pyval)) : bool :=
  existsb (fun kv => bool_decide (fst kv ∈ explicit)) options.

Definition multiple_values (fname : string) : exn :=
  mkExn TypeError (fname ++ "() got multiple values for keyword argument").

(** [flask_twisted.Twisted(app).run(host=..., port=..., debug=...,
    **options)]: the reactor starts with the pool size and log observer it
    has then. *)
Definition Twisted_run (h : option string) (p : Z) (d : bool)
    (options : list (string * pyval)) : M unit :=
  if keyword_collision ["host"; "port"; "debug"] options
  then raise (multiple_values "run")
  else modify (with_reactor (fun r =>
         mkReactor (pool_size r) (log_observer r)
           (reactor_runs r
              ++ [mkReactorRun h p d options (pool_size r)
                    (log_observer r)]))).

(** [Flask.run(host, port, debug, threaded=..., **options)]. *)
Definition Flask_run (h : option string) (p : Z) (d threaded : bool)
    (options : list (string * pyval)) : M unit :=
  modify (add_served (mkServerRun h p d threaded options)).

(** ** Command-line arguments *)

Inductive action := store | store_true.
Inductive argtype := type_str | type_int.

(** One [add_argument] of a parser. *)
Record Argument := mkArgument {
  option_strings : list string;
  dest : string;
  arg_default : pyval;
  arg_action : action;
  arg_type : argtype;
  arg_help : string
}.

Definition ArgumentParser : Type := list Argument.

(** The argument bundle [setup] reads: the six attributes with the types
    the parser gives them. *)
Record Namespace := mkNamespace {
  ns_host : option string;
  ns_port : Z;
  ns_debug : bool;
  ns_log_level : option string;
  ns_twisted : bool;
  ns_threads : option Z
}.

#[global] Instance Namespace_eq_dec : EqDecision Namespace.
Proof. solve_decision. Defined.

(** [setattr(namespace, dest, value)] for the six attributes; other
    destinations belong to the host service and are not read here. *)
Definition ns_setattr (ns : Namespace) (d : string) (v : pyval) : Namespace :=
  let '(mkNamespace h p dbg l t th) := ns in
  if String.eqb d "host" then
    match v with
    | VStr x => mkNamespace (Some x) p dbg l t th
    | VNone => mkNamespace None p dbg l t th
    | _ => ns
    end
  else if String.eqb d "port" then
    match v with VInt x => mkNamespace h x dbg l t th | _ => ns end
  else if String.eqb d "debug" then
    match v with VBool x => mkNamespace h p x l t th | _ => ns end
  else if String.eqb d "log_level" then
    match v with
    | VStr x => mkNamespace h p dbg (Some x) t th
    | VNone => mkNamespace h p dbg None t th
    | _ => ns
    end
  else if String.eqb d "twisted" then
    match v with VBool x => mkNamespace h p dbg l x th | _ => ns end
  else if String.eqb d "threads" then
    match v with
    | VInt x => mkNamespace h p dbg l t (Some x)
    | VNone => mkNamespace h p dbg l t None
    | _ => ns
    end
  else ns.

(** [int(word)] on a decimal numeral with an optional minus sign. *)
Definition int_of_word (w : string) : option Z :=
  if String.eqb w "" || String.eqb w "-" then None
  else Z.of_int <$> NilEmpty.int_of_string w.

(** Every destination starts at its default. *)
Definition ns_defaults (parser : ArgumentParser) : Namespace :=
  foldl (fun ns a => ns_setattr ns (dest a) (arg_default a))
    (mkNamespace None 0 false None false None) parser.

(** [parser.error] ends the process with status 2. *)
Definition usage_error {A} : outcome A := Raise (mkExn SystemExit "2").

(** The words of the command line, left to right.  An option is given by
    one of its option strings in full; a [store] option takes the next word
    as its value. *)
Fixpoint parse_words (parser : ArgumentParser) (ns : Namespace)
    (words : list string) : outcome Namespace :=
  match words with
  | [] => Ret ns
  | w :: rest =>
      match List.find (fun a => bool_decide (w ∈ option_strings a)) parser with
      | None => usage_error
      | Some a =>
          match arg_action a with
          | store_true => parse_words parser (ns_setattr ns (dest a) (VBool true)) rest
          | store =>
              match rest with
              | [] => usage_error
              | value :: rest' =>
                  match arg_type a with
                  | type_str =>
                      parse_words parser (ns_setattr ns (dest a) (VStr value)) rest'
                  | type_int =>
                      match int_of_word value with
                      | Some n =>
                          parse_words parser (ns_setattr ns (dest a) (VInt n)) rest'
                      | None => usage_error
                      end
                  end
              end
          end
      end
  end.

Definition parse_args (parser : ArgumentParser) (words : list string)
    : outcome Namespace :=
  parse_words parser (ns_defaults parser) words.

(** ** The class [Gourde] *)

Definition LOG_FORMAT : string :=
  "[%(asctime)s] %(levelname)s %(module)s "
  ++ "[%(filename)s:%(funcName)s:%(lineno)d] (%(thread)d): %(message)s".

(** A call that gives a method too few or too many positional arguments. *)
Definition arity_error {A} (fname : string) (missing : string) : M A :=
  raise (mkExn TypeError
    (fname ++ "() missing 1 required positional argument: '" ++ missing ++ "'")).

Definition too_many_arguments {A} (fname : string) : M A :=
  raise (mkExn TypeError (fname ++ "() takes 2 positional arguments")).

(** [get_argparser(parser=None)]: customize a parser to get the correct
    options. *)
Definition get_argparser (parser : option ArgumentParser) : ArgumentParser :=
  let parser := default [] parser in
  List.app parser
  [ mkArgument ["--host"] "host" VNone store type_str "Host listen address";
    mkArgument ["--port"; "-p"] "port" (VInt 9050) store type_int
      "Listen port";
    mkArgument ["--debug"; "-d"] "debug" (VBool false) store_true type_str
      "Enable debug mode";
    mkArgument ["--log-level"; "-l"] "log_level" (VStr "INFO") store type_str
      "Log Level, empty string to disable.";
    mkArgument ["--twisted"] "twisted" (VBool false) store_true type_str
      "Use twisted to server requests.";
    mkArgument ["--threads"] "threads" VNone store type_int
      "Number of threads to use." ].

(** [setup_logging(self, log_level)]. *)
Definition setup_logging (level : option string) : M unit :=
  match level with
  | None => ret tt
  | Some lvl =>
      if negb (truthy (VStr lvl)) then ret tt
      else
        (* Remove existing logger. *)
        config_set "LOGGER_HANDLER_POLICY" (VStr "never");;
        Logger_set_propagate true;;
        let handler := mkHandler stderr (Some LOG_FORMAT) in
        Logger_addHandler handler;;
        Logger_setLevel (getLevelName lvl);;
        Logger_info [VStr "Logging initialized."]
  end.

(** [setup(self, args)]: [args] has no default, so the method is called
    with exactly one positional argument, [None] or a bundle. *)
Definition setup (actuals : list (option Namespace)) : M unit :=
  match actuals with
  | [] => arity_error "setup" "args"
  | [args] =>
      args ← match args with
             | None =>
                 let parser := get_argparser None in
                 s ← get;
                 lift (parse_args parser (argv (proc s)))
             | Some a => ret a
             end;
      modify (with_self (set_host (ns_host args)));;
      modify (with_self (set_port (ns_port args)));;
      modify (with_self (set_debug (ns_debug args)));;
      modify (with_self (set_log_level (ns_log_level args)));;
      modify (with_self (set_twisted (ns_twisted args)));;
      modify (with_self (set_threads (ns_threads args)));;
      s ← get;
      setup_logging (log_level (self s));;
      modify (with_self (set_is_setup true))
  | _ => too_many_arguments "setup"
  end.

(** [setup_prometheus(self, registry)]. *)
Definition setup_prometheus (registry : option string) : M unit :=
  m ← PrometheusMetrics_new registry;
  modify (with_self (set_metrics (Some m)));;
  s ← get;
  version ← try_except (pkg_require_version (name (app (self s))))
              DistributionNotFound (fun _ => ret "unknown");
  metrics_info "app_info" "Application info"
    [("version", version); ("appname", name (app (self s)))];;
  Logger_info [VStr "Prometheus is enabled."].

(** [setup_sentry(self, sentry_dsn)]. *)
Definition setup_sentry (sentry_dsn : option string) : M unit :=
  s ← get;
  let sentry_dsn :=
    if truthy (of_str sentry_dsn) then sentry_dsn
    else environ (proc s) !! "SENTRY_DSN" in
  if negb (Sentry (proc s)) || negb (truthy (of_str sentry_dsn)) then ret tt
  else
    match sentry_dsn with
    | Some dsn =>
        Sentry_init_app dsn;;
        Logger_info [VStr "Sentry is enabled."]
    | None => ret tt
    end.

(** [add_url_rule(self, route, endpoint, handler)]. *)
Definition add_url_rule (route endpoint : string) (handler : view) : M unit :=
  Flask_add_url_rule route endpoint handler.

(** [__init__(self, app_or_name, registry=None)], run in a process [p]. *)
Definition __init__ (app_or_name : Flask + string) (registry : option string)
    (p : Process) : outcome unit * State :=
  let a := match app_or_name with
           | inl a => a
           | inr import_name => Flask_new import_name
           end in
  let s0 :=
    mkState (mkGourde a (Some "127.0.0.1") 8080 false None false None None
               false) p in
  (add_url_rule "/" "status" view_status;;
   add_url_rule "/-/healthy" "health" view_healthy;;
   add_url_rule "/-/ready" "ready" view_ready;;
   s ← get;
   (if has_static_folder (app (self s))
    then add_url_rule "/favicon.ico" "favicon" view_favicon
    else ret tt);;
   setup_prometheus registry;;
   setup_sentry None) s0.

Definition status : M view_result := ret (Body "status").

(** [werkzeug.exceptions.NotFound], an [HTTPException]. *)
Definition NotFound : exc_class :=
  Subclass "NotFound" (Subclass "HTTPException" Exception).

(** [flask.send_from_directory(directory, filename, mimetype=...)]: the
    file name is joined to the directory, which has to be a path; when the
    result is not a regular file the engine raises [NotFound], otherwise it
    sends the file. *)
Definition send_from_directory (directory : option string)
    (filename mimetype : string) : M view_result :=
  match directory with
  | None =>
      raise (mkExn TypeError
               "expected str, bytes or os.PathLike object, not NoneType")
  | Some d =>
      s ← get;
      if isfile (proc s) d filename
      then ret (SendFromDirectory (Some d) filename mimetype)
      else raise (mkExn NotFound "404 Not Found")
  end.

(** [favicon(self)]. *)
Definition favicon : M view_result :=
  s ← get;
  send_from_directory (static_folder (app (self s))) "favicon.ico"
    "image/vnd.microsoft.icon".

(** The two methods a service overrides. *)
Class Hooks := {
  is_healthy : M pyval;
  is_ready : M pyval
}.

(** [Gourde] itself: both return [True]. *)
Definition default_hooks : Hooks :=
  {| is_healthy := ret (VBool true); is_ready := ret (VBool true) |}.

Section Handlers.
Context {hooks : Hooks}.

(** [healthy(self)]: return 200 is healthy, else 500. *)
Definition healthy : M view_result :=
  try_except
    (r ← is_healthy;
     if truthy r then ret (BodyStatus "OK" 200)
     else ret (BodyStatus "FAIL" 500))
    Exception
    (fun e =>
       Logger_exception [];;
       ret (BodyStatus (str e) 500)).

(** [ready(self)]: return 200 is ready, else 500. *)
Definition ready : M view_result :=
  try_except
    (r ← is_ready;
     if truthy r then ret (BodyStatus "OK" 200)
     else ret (BodyStatus "FAIL" 500))
    Exception
    (fun e =>
       Logger_exception [];;
       ret (BodyStatus (str e) 500)).

(** The method behind each view this object registers. *)
Definition bound_method (v : view) : option (M view_result) :=
  match v with
  | view_status => Some status
  | view_healthy => Some healthy
  | view_ready => Some ready
  | view_favicon => Some favicon
  | view_other _ => None
  end.
End Handlers.

(** [run_with_werkzeug(self, **options)]: run with werkzeug simple wsgi
    container. *)
Definition run_with_werkzeug (options : list (string * pyval)) : M unit :=
  s ← get;
  let threaded :=
    match threads (self s) with
    | None => false
    | Some n => n >? 0
    end in
  Flask_run (host (self s)) (port (self s)) (debug (self s)) threaded options.

(** [run_with_twisted(self, **options)]: run with twisted. *)
Definition run_with_twisted (options : list (string * pyval)) : M unit :=
  s ← get;
  (match threads (self s) with
   | Some n =>
       if truthy (VInt n) then reactor_suggestThreadPoolSize n else ret tt
   | None => ret tt
   end);;
  (if truthy (of_str (log_level (self s)))
   then log_startLogging stderr
   else ret tt);;
  Twisted_run (host (self s)) (port (self s)) (debug (self s)) options.

(** [run(self, **options)]: run the application. *)
Definition run (options : list (string * pyval)) : M unit :=
  s ← get;
  (if negb (is_setup (self s)) then setup [] else ret tt);;
  s ← get;
  if negb (twisted (self s)) then run_with_werkzeug options
  else run_with_twisted options.

(** ** Example objects *)

(** A process with no arguments and no environment, where [raven] is not
    importable and no distribution is installed under any name. *)
Definition bare_process : Process :=
  mkProcess [] ∅ false
    (fun nm => Raise (mkExn DistributionNotFound
                        ("The '" ++ nm ++ "' distribution was not found")))
    (mkReactor 10 None []) [] (fun _ _ => false).

(** [Gourde("svc")] in that process. *)
Definition svc : State :=
  Eval vm_compute in snd (__init__ (inr "svc") None bare_process).

(** An override of both checks that raises [e]. *)
Definition raising_hooks (e : exn) : Hooks :=
  {| is_healthy := raise e; is_ready := raise e |}.

(** An override of both checks that returns [v]. *)
Definition constant_hooks (v : pyval) : Hooks :=
  {| is_healthy := ret v; is_ready := ret v |}.

(** ** Vocabulary of the properties *)

Definition response (b : bool) : view_result :=
  if b then BodyStatus "OK" 200 else BodyStatus "FAIL" 500.

(** What [logger.exception()] raises: the call gives no message. *)
Definition exception_without_msg : exn :=
  mkExn TypeError "exception() missing 1 required positional argument: 'msg'".

(** What [self.setup()] raises: [args] is not given. *)
Definition setup_without_args : exn :=
  mkExn TypeError "setup() missing 1 required positional argument: 'args'".

(** The server started last, if any. *)
Definition last_served (s : State) : option ServerRun := last (served (proc s)).

(** The reactor run started last, if any. *)
Definition last_reactor_run (s : State) : option ReactorRun :=
  last (reactor_runs (reactor (proc s))).

(** The pool size and the log observer the reactor has when
    [run_with_twisted] starts it. *)
Definition pool_at_start (s : State) : Z :=
  match threads (self s) with
  | Some n => if truthy (VInt n) then n else pool_size (reactor (proc s))
  | None => pool_size (reactor (proc s))
  end.

Definition log_at_start (s : State) : option Stream :=
  if truthy (of_str (log_level (self s))) then Some stderr
  else log_observer (reactor (proc s)).

(** No thread count, or one the reactor takes as a pool size. *)
Definition threads_accepted (th : option Z) : bool :=
  match th with
  | None => true
  | Some n => 0 <=? n
  end.

(** What the reactor's pool raises on a negative size. *)
Definition pool_assertion : exn :=
  mkExn AssertionError "minimum is greater than maximum".

(** The state once [run_with_twisted] has started the reactor. *)
Definition reactor_started (options : list (string * pyval)) (s : State)
    : State :=
  with_reactor (fun r =>
    mkReactor (pool_at_start s) (log_at_start s)
      (reactor_runs r
         ++ [mkReactorRun (host (self s)) (port (self s)) (debug (self s))
               options (pool_at_start s) (log_at_start s)])) s.

(** [svc] configured for the reactor with 8 threads and level [INFO]. *)
Definition svc_twisted : State :=
  with_self (set_threads (Some 8))
    (with_self (set_log_level (Some "INFO"))
       (with_self (set_twisted true) svc)).

(** The handler [setup_logging] builds. *)
Definition stream_handler : Handler := mkHandler stderr (Some LOG_FORMAT).

(** The state once the policy, the propagation flag and the handler are in
    place, before the level is set. *)
Definition handler_attached (s : State) : State :=
  with_logger (fun l =>
    mkLogger true (handlers l ++ [stream_handler]) (lg_level l) (records l))
    (with_app (fun a =>
       mkFlask (name a) (static_folder a) (url_map a) (view_functions a)
         (<["LOGGER_HANDLER_POLICY" := VStr "never"]> (config a)) (logger a)
         (sentry a)) s).

(** The state once the level is set to [n] and the confirmation is logged. *)
Definition logging_initialized (n : Z) (s : State) : State :=
  with_logger (fun l =>
    mkLogger (propagate l) (handlers l) n
      (records l ++ [mkLogRecord INFO (VStr "Logging initialized.") false]))
    (handler_attached s).

(** The reading of "attaches one stream handler and sets the threshold":
    the call returns, the handler list grew by the stream handler, and the
    logger's level is the one the given name stands for. *)
Definition attaches_and_sets_threshold (l : string) (s : State) : Prop :=
  exists s',
    setup_logging (Some l) s = (Ret tt, s')
    /\ handlers (logger (app (self s')))
       = (handlers (logger (app (self s))) ++ [stream_handler])%list
    /\ _checkLevel (getLevelName l) = Ret (lg_level (logger (app (self s')))).

(** The six attribute stores of [setup]. *)
Definition store_bundle (args : Namespace) (s : State) : State :=
  with_self (set_threads (ns_threads args))
    (with_self (set_twisted (ns_twisted args))
       (with_self (set_log_level (ns_log_level args))
          (with_self (set_debug (ns_debug args))
             (with_self (set_port (ns_port args))
                (with_self (set_host (ns_host args)) s))))).

(** The configuration attributes of [self]. *)
Definition configuration (s : State) :
    option string * Z * bool * option string * bool * option Z :=
  let g := self s in
  (host g, port g, debug g, log_level g, twisted g, threads g).

Definition bundle_values (args : Namespace) :
    option string * Z * bool * option string * bool * option Z :=
  (ns_host args, ns_port args, ns_debug args, ns_log_level args,
   ns_twisted args, ns_threads args).

(** A level [setLevel] accepts, or no level at all. *)
Definition level_accepted (level : option string) : bool :=
  match level with
  | None => true
  | Some l => String.eqb l "" || bool_decide (is_Some (_nameToLevel !! l))
  end.

(** The reading of C6: [setup(args)] returns, the six attributes are those
    of the bundle, logging was initialized on the stored state before the
    return, and [is_setup] is true. *)
Definition setup_completes (args : Namespace) (s : State) : Prop :=
  exists s1,
    setup_logging (ns_log_level args) (store_bundle args s) = (Ret tt, s1)
    /\ setup [Some args] s = (Ret tt, with_self (set_is_setup true) s1)
    /\ configuration (snd (setup [Some args] s)) = bundle_values args
    /\ is_setup (self (snd (setup [Some args] s))) = true.

(** A bundle with a level name the logging library does not know. *)
Definition bogus_bundle : Namespace :=
  mkNamespace (Some "0.0.0.0") 8000 false (Some "bogus") false None.

(** A bundle for the reactor with 8 threads. *)
Definition reactor_bundle : Namespace :=
  mkNamespace None 9050 true (Some "INFO") true (Some 8).

(** [m] leaves the observation [obs] of the state as it found it, whether
    it returns or raises. *)
Definition keeps {B} (obs : State -> B) {A} (m : M A) : Prop :=
  forall s, obs (snd (m s)) = obs s.

(** The attributes [__init__] assigns and only [setup] assigns again. *)
Definition settings (s : State) :
    option string * Z * bool * option string * bool * option Z * bool :=
  (configuration s, is_setup (self s)).

(** The application [__init__] starts from. *)
Definition initial_app (app_or_name : Flask + string) : Flask :=
  match app_or_name with
  | inl a => a
  | inr import_name => Flask_new import_name
  end.

(** The state right after the attribute assignments of [__init__]. *)
Definition initial_state (a : Flask) (p : Process) : State :=
  mkState (mkGourde a (Some "127.0.0.1") 8080 false None false None None
             false) p.

(** The calls of [__init__] after the attribute assignments. *)
Definition wiring (registry : option string) : M unit :=
  add_url_rule "/" "status" view_status;;
  add_url_rule "/-/healthy" "health" view_healthy;;
  add_url_rule "/-/ready" "ready" view_ready;;
  s ← get;
  (if has_static_folder (app (self s))
   then add_url_rule "/favicon.ico" "favicon" view_favicon
   else ret tt);;
  setup_prometheus registry;;
  setup_sentry None.

(** The namespace of the command-line defaults. *)
Definition default_namespace : Namespace :=
  mkNamespace None 9050 false (Some "INFO") false None.

Definition rule_added (rule endpoint : string) : State -> State :=
  with_app (fun a =>
    mkFlask (name a) (static_folder a) (url_map a ++ [(rule, endpoint)])
      (view_functions a) (config a) (logger a) (sentry a)).

Definition view_bound (endpoint : string) (v : view) : State -> State :=
  with_app (fun a =>
    mkFlask (name a) (static_folder a) (url_map a)
      (<[endpoint := v]> (view_functions a)) (config a) (logger a)
      (sentry a)).

(** The state after a successful [add_url_rule]. *)
Definition route_registered (rule endpoint : string) (v : view)
    (s : State) : State :=
  view_bound endpoint v (rule_added rule endpoint s).

(** The routing tables of the application, with its static folder. *)
Definition routes (s : State) :
    list (string * string) * gmap string view * option string :=
  let a := app (self s) in (url_map a, view_functions a, static_folder a).

(** The part of [setup_prometheus] that follows the attachment of the
    exporter [m]. *)
Definition publish_app_info (m : PrometheusMetrics) : M unit :=
  modify (with_self (set_metrics (Some m)));;
  s ← get;
  version ← try_except (pkg_require_version (name (app (self s))))
              DistributionNotFound (fun _ => ret "unknown");
  metrics_info "app_info" "Application info"
    [("version", version); ("appname", name (app (self s)))];;
  Logger_info [VStr "Prometheus is enabled."].

(** The state [publish_app_info] leaves when it registers the version
    [version]. *)
Definition app_info_published (m : PrometheusMetrics) (version : string)
    (s : State) : State :=
  with_logger (fun l =>
    mkLogger (propagate l) (handlers l) (lg_level l)
      (records l ++ [mkLogRecord INFO (VStr "Prometheus is enabled.") false]))
    (with_self (set_metrics
       (Some (mkMetrics (registry m)
                (infos m ++ [mkInfo "app_info" "Application info"
                               [("version", version);
                                ("appname", name (app (self s)))]])))) s).

(** [Gourde(import_name)] once its routes and the exporter's are in. *)
Definition wired (import_name : string) (p : Process) : State :=
  route_registered "/metrics" "prometheus_metrics"
    (view_other "prometheus_metrics")
    (route_registered "/favicon.ico" "favicon" view_favicon
       (route_registered "/-/ready" "ready" view_ready
          (route_registered "/-/healthy" "health" view_healthy
             (route_registered "/" "status" view_status
                (initial_state (Flask_new import_name) p))))).

(** The [app_info] metric with version ['unknown']. *)
Definition app_info_unknown (appname : string) : InfoMetric :=
  mkInfo "app_info" "Application info"
    [("version", "unknown"); ("appname", appname)].

(** The reading of C9 for [Gourde(import_name, registry)] in a process:
    the constructor returns and [app_info] carries the version
    ['unknown']. *)
Definition version_failure_tolerated (import_name : string)
    (registry : option string) (p : Process) : Prop :=
  fst (__init__ (inr import_name) registry p) = Ret tt
  /\ metrics (self (snd (__init__ (inr import_name) registry p)))
     = Some (mkMetrics registry [app_info_unknown import_name]).

(** What [pkg_resources.require] raises when a requirement of the
    distribution is installed in a version the distribution does not
    accept. *)
Definition conflict : exn :=
  mkExn VersionConflict
    "(Flask 0.12 (/usr/lib/python), Requirement.parse('Flask>=1.0'))".

(** A process where every lookup of a version ends in that conflict. *)
Definition conflicting_process : Process :=
  mkProcess [] ∅ false (fun _ => Raise conflict) (mkReactor 10 None []) []
    (fun _ _ => false).

(** The rules the constructor adds to the URL map of [a0], in order. *)
Definition builtin_rules (a0 : Flask) : list (string * string) :=
  [("/", "status"); ("/-/healthy", "health"); ("/-/ready", "ready")]
  ++ (if has_static_folder a0 then [("/favicon.ico", "favicon")] else []).

(** The state once the constructor has registered its own routes on the
    application [a0]. *)
Definition builtin_registered (a0 : Flask) (p : Process) : State :=
  let s3 :=
    route_registered "/-/ready" "ready" view_ready
      (route_registered "/-/healthy" "health" view_healthy
         (route_registered "/" "status" view_status (initial_state a0 p))) in
  if has_static_folder a0
  then route_registered "/favicon.ico" "favicon" view_favicon s3
  else s3.

(** ** Vocabulary of the further properties *)

(** The DSN [setup_sentry] goes on with: the argument when it is given and
    not empty, the environment's [SENTRY_DSN] otherwise. *)
Definition resolved_dsn (dsn : option string) (s : State) : option string :=
  if truthy (of_str dsn) then dsn else environ (proc s) !! "SENTRY_DSN".

(** The state once Sentry is attached with [dsn] and the fact is logged. *)
Definition sentry_enabled (dsn : string) (s : State) : State :=
  with_logger (fun l =>
    mkLogger (propagate l) (handlers l) (lg_level l)
      (records l ++ [mkLogRecord INFO (VStr "Sentry is enabled.") false]))
    (with_app (fun a =>
       mkFlask (name a) (static_folder a) (url_map a) (view_functions a)
         (config a) (logger a) (Some dsn)) s).

(** What configuration leaves alone: the routes, the metrics handle, the
    error monitor and the process. *)
Definition surroundings (s : State) :
    (list (string * string) * gmap string view * option string)
    * option PrometheusMetrics * option string * Process :=
  (routes s, metrics (self s), sentry (app (self s)), proc s).

(** A process where [raven] is importable, [SENTRY_DSN] is set and the
    distribution is installed in version 1.2.0. *)
Definition monitored_process : Process :=
  mkProcess [] {[ "SENTRY_DSN" := "https://key@sentry.example/1" ]} true
    (fun _ => Ret "1.2.0") (mkReactor 10 None []) [] (fun _ _ => false).

(** An application of the host service, with its static folder, and a
    process in which that folder holds a [favicon.ico]. *)
Definition site_app : Flask :=
  mkFlask "site" (Some "/srv/site/static")
    [("/static/<path:filename>", "static")]
    {[ "static" := view_other "flask.static" ]} ∅
    (mkLogger false [] NOTSET []) None.

Definition site_process : Process :=
  mkProcess [] ∅ false (fun _ => Ret "0.3.1") (mkReactor 10 None []) []
    (fun d f =>
       String.eqb d "/srv/site/static" && String.eqb f "favicon.ico").

(** [setup_logging] called with each level of a list in turn. *)
Definition setup_logging_each (levels : list string) (s : State) : State :=
  foldl (fun s l => snd (setup_logging (Some l) s)) s levels.

(** The handlers one call of [setup_logging] adds. *)
Definition handlers_added (level : option string) : list Handler :=
  if truthy (of_str level) then [stream_handler] else [].

(** * Properties *)

(** [svc] is what the constructor leaves, and the constructor returns. *)
Lemma svc_constructed :
  __init__ (inr "svc") None bare_process = (Ret tt, svc).
Proof. vm_compute. reflexivity. Qed.

(** ** Running computations *)

Lemma bind_ret_inv {A B} (m : M A) (k : A -> M B) s b s' :
  (m ≫= k) s = (Ret b, s') ->
  exists a s1, m s = (Ret a, s1) /\ k a s1 = (Ret b, s').
Proof.
  unfold mbind, M_bind, bind. destruct (m s) as [[a|e] s1]; intros H.
  - eauto.
  - discriminate.
Qed.

Lemma bind_run {A B} (m : M A) (k : A -> M B) s a s1 :
  m s = (Ret a, s1) -> (m ≫= k) s = k a s1.
Proof. unfold mbind, M_bind, bind. now intros ->. Qed.

Lemma bind_raise {A B} (m : M A) (k : A -> M B) s e s1 :
  m s = (Raise e, s1) -> (m ≫= k) s = (Raise e, s1).
Proof. unfold mbind, M_bind, bind. now intros ->. Qed.

Lemma try_except_ret {A} (body : M A) cls handler s a s1 :
  body s = (Ret a, s1) -> try_except body cls handler s = (Ret a, s1).
Proof. unfold try_except. now intros ->. Qed.

Lemma try_except_caught {A} (body : M A) cls handler s e s1 :
  body s = (Raise e, s1) -> isinstance e cls = true ->
  try_except body cls handler s = handler e s1.
Proof. unfold try_except. now intros -> ->. Qed.

Lemma try_except_escapes {A} (body : M A) cls handler s e s1 :
  body s = (Raise e, s1) -> isinstance e cls = false ->
  try_except body cls handler s = (Raise e, s1).
Proof. unfold try_except. now intros -> ->. Qed.

(** ** The health and readiness handlers *)

Section HandlerFacts.
Context {hooks : Hooks}.

Lemma check_response (check : M pyval) s v s' :
  check s = (Ret v, s') ->
  try_except
    (r ← check;
     if truthy r then ret (BodyStatus "OK" 200)
     else ret (BodyStatus "FAIL" 500))
    Exception
    (fun e => Logger_exception [];; ret (BodyStatus (str e) 500)) s
  = (Ret (response (truthy v)), s').
Proof.
  intros Hc. apply try_except_ret.
  rewrite (bind_run _ _ _ _ _ Hc). now destruct (truthy v).
Qed.

Lemma check_raises (check : M pyval) s e s' :
  check s = (Raise e, s') -> isinstance e Exception = true ->
  try_except
    (r ← check;
     if truthy r then ret (BodyStatus "OK" 200)
     else ret (BodyStatus "FAIL" 500))
    Exception
    (fun e => Logger_exception [];; ret (BodyStatus (str e) 500)) s
  = (Raise exception_without_msg, s').
Proof.
  intros Hc He.
  rewrite (try_except_caught _ _ _ _ e s'); [reflexivity | | exact He].
  now apply bind_raise.
Qed.

Lemma healthy_raises s e s' :
  is_healthy s = (Raise e, s') -> isinstance e Exception = true ->
  healthy s = (Raise exception_without_msg, s').
Proof. apply check_raises. Qed.

Lemma ready_raises s e s' :
  is_ready s = (Raise e, s') -> isinstance e Exception = true ->
  ready s = (Raise exception_without_msg, s').
Proof. apply check_raises. Qed.
End HandlerFacts.

(** C1: an override of [is_healthy] (resp. [is_ready]) that raises
    [Exception("db down")] does not get the response [("db down", 500)]:
    the handler catches the error, then [self.app.logger.exception()] is
    called without its message and raises [TypeError], which leaves the
    handler; no record reaches the logger. *)
Theorem raising_override_escapes_handler :
  let hooks := raising_hooks (mkExn Exception "db down") in
  healthy svc = (Raise exception_without_msg, svc)
  /\ ready svc = (Raise exception_without_msg, svc)
  /\ raised (fst (healthy svc)) = Some TypeError
  /\ raised (fst (ready svc)) = Some TypeError
  /\ healthy svc <> (Ret (BodyStatus "db down" 500), snd (healthy svc))
  /\ records (logger (app (self (snd (healthy svc)))))
     = records (logger (app (self svc))).
Proof.
  intros hooks.
  assert (Hh : healthy svc = (Raise exception_without_msg, svc))
    by (now apply (healthy_raises svc (mkExn Exception "db down"))).
  assert (Hr : ready svc = (Raise exception_without_msg, svc))
    by (now apply (ready_raises svc (mkExn Exception "db down"))).
  rewrite Hh, Hr. repeat split. discriminate.
Qed.

(** C2: when the override of [is_healthy] (resp. [is_ready]) returns
    [True] the handler answers [('OK', 200)], when it returns [False] it
    answers [('FAIL', 500)], and the methods of [Gourde] itself return
    [True], so that the handlers answer [('OK', 200)]. *)
Theorem boolean_override_response (hooks : Hooks) (s s' : State) (b : bool) :
  (is_healthy s = (Ret (VBool b), s') ->
   healthy s
   = (Ret (if b then BodyStatus "OK" 200 else BodyStatus "FAIL" 500), s'))
  /\ (is_ready s = (Ret (VBool b), s') ->
      ready s
      = (Ret (if b then BodyStatus "OK" 200 else BodyStatus "FAIL" 500), s'))
  /\ @is_healthy default_hooks s = (Ret (VBool true), s)
  /\ @is_ready default_hooks s = (Ret (VBool true), s)
  /\ @healthy default_hooks s = (Ret (BodyStatus "OK" 200), s)
  /\ @ready default_hooks s = (Ret (BodyStatus "OK" 200), s).
Proof.
  repeat split; try reflexivity.
  - intros H. unfold healthy. now rewrite (check_response _ _ _ _ H).
  - intros H. unfold ready. now rewrite (check_response _ _ _ _ H).
Qed.

Lemma boolean_override_response_witness :
  @healthy (constant_hooks (VBool false)) svc
  = (Ret (BodyStatus "FAIL" 500), svc)
  /\ @ready (constant_hooks (VBool true)) svc
     = (Ret (BodyStatus "OK" 200), svc).
Proof.
  split.
  - apply (proj1 (boolean_override_response
                    (constant_hooks (VBool false)) svc svc false)).
    reflexivity.
  - apply (proj1 (proj2 (boolean_override_response
                           (constant_hooks (VBool true)) svc svc true))).
    reflexivity.
Defined.

(** ** Running the application *)

Lemma run_unconfigured options s :
  is_setup (self s) = false -> run options s = (Raise setup_without_args, s).
Proof. intros H. unfold run, mbind, M_bind, bind, get. now rewrite H. Qed.

Lemma run_configured options s :
  is_setup (self s) = true ->
  run options s
  = if twisted (self s) then run_with_twisted options s
    else run_with_werkzeug options s.
Proof.
  intros H. unfold run, mbind, M_bind, bind, get, ret. rewrite H. simpl.
  now destruct (twisted (self s)).
Qed.

(** C3: on the object [Gourde("svc")], where [setup] was never called,
    [run()] does not perform a setup: [self.setup()] gives [setup(self,
    args)] no [args] and raises [TypeError]; [is_setup] stays false and no
    server is started. *)
Theorem run_without_setup_raises :
  is_setup (self svc) = false
  /\ run [] svc = (Raise setup_without_args, svc)
  /\ raised (fst (run [] svc)) = Some TypeError
  /\ is_setup (self (snd (run [] svc))) = false
  /\ served (proc (snd (run [] svc))) = []
  /\ reactor_runs (reactor (proc (snd (run [] svc)))) = [].
Proof.
  assert (H : is_setup (self svc) = false) by reflexivity.
  rewrite (run_unconfigured [] svc H). repeat split.
Qed.

Lemma run_with_werkzeug_eq options s :
  run_with_werkzeug options s
  = (Ret tt,
     add_served
       (mkServerRun (host (self s)) (port (self s)) (debug (self s))
          (match threads (self s) with
           | None => false
           | Some n => n >? 0
           end) options) s).
Proof. reflexivity. Qed.


Lemma run_with_twisted_eq options s :
  threads_accepted (threads (self s)) = true ->
  keyword_collision ["host"; "port"; "debug"] options = false ->
  run_with_twisted options s = (Ret tt, reactor_started options s).
Proof.
  intros Hth Hopt.
  unfold run_with_twisted, reactor_started, pool_at_start, log_at_start,
    mbind, M_bind, bind, get, Twisted_run, reactor_suggestThreadPoolSize.
  destruct (threads (self s)) as [n|]; simpl.
  - simpl in Hth. destruct (Z.ltb_spec n 0); [lia|].
    destruct (negb (n =? 0)); simpl;
      destruct (truthy (of_str (log_level (self s)))); simpl;
      rewrite Hopt; reflexivity.
  - destruct (truthy (of_str (log_level (self s)))); simpl;
      rewrite Hopt; reflexivity.
Qed.

Lemma run_with_twisted_negative options s n :
  threads (self s) = Some n -> n < 0 ->
  run_with_twisted options s = (Raise pool_assertion, s).
Proof.
  intros Hth Hn.
  unfold run_with_twisted, mbind, M_bind, bind, get,
    reactor_suggestThreadPoolSize.
  rewrite Hth. simpl.
  destruct (Z.eqb_spec n 0); [lia|]. simpl.
  destruct (Z.ltb_spec n 0); [reflexivity | lia].
Qed.

(** C5: for a thread count the reactor accepts (none, or one that is not
    negative) and options that do not repeat [host], [port] or [debug],
    [run_with_twisted] starts the reactor once; when the thread count is
    positive the reactor starts with a thread pool of that size, when the
    log level is present and not empty it starts with its log going to
    [sys.stderr]; a thread count of 8 gives a pool of 8. *)
Theorem twisted_pool_size_and_log (options : list (string * pyval))
    (s : State) :
  threads_accepted (threads (self s)) = true ->
  keyword_collision ["host"; "port"; "debug"] options = false ->
  fst (run_with_twisted options s) = Ret tt
  /\ exists r,
      reactor_runs (reactor (proc (snd (run_with_twisted options s))))
      = (reactor_runs (reactor (proc s)) ++ [r])%list
      /\ last_reactor_run (snd (run_with_twisted options s)) = Some r
      /\ rr_host r = host (self s)
      /\ rr_port r = port (self s)
      /\ rr_debug r = debug (self s)
      /\ rr_options r = options
      /\ (forall n, threads (self s) = Some n -> 0 < n ->
          rr_pool_size r = n)
      /\ (forall l, log_level (self s) = Some l -> l <> "" ->
          rr_log r = Some stderr)
      /\ (threads (self s) = Some 8 -> rr_pool_size r = 8).
Proof.
  intros Hth Hopt.
  rewrite (run_with_twisted_eq options s Hth Hopt). unfold reactor_started.
  split; [reflexivity|].
  eexists. split; [simpl; reflexivity|].
  split; [unfold last_reactor_run; simpl; apply last_snoc|].
  do 4 (split; [reflexivity|]). split; [|split].
  - intros n Hn Hpos. simpl. unfold pool_at_start. rewrite Hn. simpl.
    destruct (Z.eqb_spec n 0); [lia | reflexivity].
  - intros l Hl Hne. simpl. unfold log_at_start. rewrite Hl. simpl.
    destruct (String.eqb_spec l ""); [contradiction | reflexivity].
  - intros Hn. simpl. unfold pool_at_start. now rewrite Hn.
Qed.

Lemma twisted_pool_size_and_log_witness :
  exists r,
    last_reactor_run (snd (run_with_twisted [] svc_twisted)) = Some r
    /\ rr_pool_size r = 8 /\ rr_log r = Some stderr.
Proof.
  destruct (twisted_pool_size_and_log [] svc_twisted eq_refl eq_refl)
    as (_ & r & _ & Hlast & _ & _ & _ & _ & Hpool & Hlog & _).
  exists r. split; [exact Hlast|]. split.
  - apply (Hpool 8); [reflexivity | lia].
  - apply (Hlog "INFO"); [reflexivity | discriminate].
Defined.

(** ** Logging setup *)

(** No registered level name starts with ["Level "]. *)
Lemma level_text_unregistered (nm : string) :
  _nameToLevel !! ("Level " ++ nm) = None.
Proof.
  destruct (_nameToLevel !! ("Level " ++ nm)) as [n|] eqn:E; [|reflexivity].
  apply elem_of_list_to_map_2 in E.
  repeat (apply elem_of_cons in E as [E|E]; [discriminate E|]).
  now apply elem_of_nil in E.
Qed.

Lemma setup_logging_skipped (level : option string) (s : State) :
  truthy (of_str level) = false -> setup_logging level s = (Ret tt, s).
Proof.
  destruct level as [l|]; [|reflexivity]. simpl. unfold setup_logging.
  simpl. now intros ->.
Qed.

Lemma setup_logging_known (l : string) (n : Z) (s : State) :
  l <> "" -> _nameToLevel !! l = Some n ->
  setup_logging (Some l) s = (Ret tt, logging_initialized n s).
Proof.
  intros Hne Hn. unfold setup_logging. simpl.
  destruct (String.eqb_spec l ""); [contradiction|]. simpl.
  unfold mbind, M_bind, bind, config_set, Logger_set_propagate,
    Logger_addHandler, Logger_setLevel, modify, lift, getLevelName.
  simpl. rewrite Hn. reflexivity.
Qed.

Lemma setup_logging_unknown (l : string) (s : State) :
  l <> "" -> _nameToLevel !! l = None ->
  setup_logging (Some l) s
  = (Raise (mkExn ValueError ("Unknown level: 'Level " ++ l ++ "'")),
     handler_attached s).
Proof.
  intros Hne Hn. unfold setup_logging. simpl.
  destruct (String.eqb_spec l ""); [contradiction|]. simpl.
  unfold mbind, M_bind, bind, config_set, Logger_set_propagate,
    Logger_addHandler, Logger_setLevel, modify, lift, getLevelName.
  simpl. rewrite Hn. unfold _checkLevel.
  rewrite (level_text_unregistered l). reflexivity.
Qed.

Lemma setup_logging_handlers (l : string) (s : State) :
  l <> "" ->
  handlers (logger (app (self (snd (setup_logging (Some l) s)))))
  = (handlers (logger (app (self s))) ++ [stream_handler])%list.
Proof.
  intros Hne. destruct (_nameToLevel !! l) as [n|] eqn:E.
  - now rewrite (setup_logging_known l n s Hne E).
  - now rewrite (setup_logging_unknown l s Hne E).
Qed.

(** C8, as stated, fails for the non-empty level ["bogus"]: the handler is
    attached, then [setLevel] rejects the name with [ValueError] and the
    threshold keeps its value. *)
Lemma setup_logging_unknown_level_counterexample :
  "bogus" <> ""
  /\ ~ attaches_and_sets_threshold "bogus" svc
  /\ raised (fst (setup_logging (Some "bogus") svc)) = Some ValueError
  /\ lg_level (logger (app (self (snd (setup_logging (Some "bogus") svc)))))
     = lg_level (logger (app (self svc))).
Proof.
  assert (E : setup_logging (Some "bogus") svc
              = (Raise (mkExn ValueError "Unknown level: 'Level bogus'"),
                 handler_attached svc))
    by (now apply setup_logging_unknown).
  split; [discriminate|]. split.
  - intros (s' & H & _). rewrite E in H. discriminate.
  - now rewrite E.
Qed.

(** C8 (amended): with an absent or empty level [setup_logging] returns and
    leaves the whole state as it was.  With a non-empty level it attaches
    one stream handler with the fixed format after the handlers already
    there, so a second such call leaves two of them; when the level is a
    name registered with the logging library it also sets the threshold to
    that level and returns, and when the name is not registered it raises
    [ValueError] with the threshold unchanged. *)
Theorem setup_logging_effects (level : option string) (s : State) :
  (truthy (of_str level) = false -> setup_logging level s = (Ret tt, s))
  /\ (forall l, level = Some l -> l <> "" ->
      handlers (logger (app (self (snd (setup_logging level s)))))
      = (handlers (logger (app (self s))) ++ [stream_handler])%list
      /\ (forall l2, l2 <> "" ->
          handlers (logger (app (self
            (snd (setup_logging (Some l2) (snd (setup_logging level s)))))))
          = (handlers (logger (app (self s)))
               ++ [stream_handler; stream_handler])%list)
      /\ (forall n, _nameToLevel !! l = Some n ->
          attaches_and_sets_threshold l s
          /\ lg_level (logger (app (self (snd (setup_logging level s))))) = n)
      /\ (_nameToLevel !! l = None ->
          raised (fst (setup_logging level s)) = Some ValueError
          /\ lg_level (logger (app (self (snd (setup_logging level s)))))
             = lg_level (logger (app (self s))))).
Proof.
  split; [apply setup_logging_skipped|].
  intros l -> Hne. split; [now apply setup_logging_handlers|].
  split; [|split].
  - intros l2 Hne2.
    rewrite (setup_logging_handlers l2 _ Hne2),
      (setup_logging_handlers l s Hne), <- app_assoc.
    reflexivity.
  - intros n Hn. rewrite (setup_logging_known l n s Hne Hn). split.
    + exists (logging_initialized n s).
      rewrite (setup_logging_known l n s Hne Hn).
      split; [reflexivity|]. split; [reflexivity|].
      unfold getLevelName. now rewrite Hn.
    + reflexivity.
  - intros Hn. now rewrite (setup_logging_unknown l s Hne Hn).
Qed.

Lemma setup_logging_effects_witness :
  setup_logging (Some "") svc = (Ret tt, svc)
  /\ attaches_and_sets_threshold "DEBUG" svc
  /\ lg_level (logger (app (self (snd (setup_logging (Some "DEBUG") svc)))))
     = DEBUG
  /\ handlers (logger (app (self
       (snd (setup_logging (Some "INFO")
               (snd (setup_logging (Some "DEBUG") svc)))))))
     = [stream_handler; stream_handler]
  /\ raised (fst (setup_logging (Some "info") svc)) = Some ValueError.
Proof.
  destruct (setup_logging_effects (Some "") svc) as [Hskip _].
  destruct (proj2 (setup_logging_effects (Some "DEBUG") svc) "DEBUG"
              eq_refl ltac:(discriminate)) as (_ & Htwice & Hknown & _).
  destruct (proj2 (setup_logging_effects (Some "info") svc) "info"
              eq_refl ltac:(discriminate)) as (_ & _ & _ & Hunknown).
  split; [apply Hskip; reflexivity|].
  split; [apply (Hknown DEBUG); vm_compute; reflexivity|].
  split; [apply (Hknown DEBUG); vm_compute; reflexivity|].
  split; [apply (Htwice "INFO"); discriminate|].
  apply Hunknown. vm_compute. reflexivity.
Defined.

(** ** Configuration from an explicit bundle *)

Lemma setup_bundle_eq (args : Namespace) (s : State) :
  setup [Some args] s
  = match setup_logging (ns_log_level args) (store_bundle args s) with
    | (Ret _, s1) => (Ret tt, with_self (set_is_setup true) s1)
    | (Raise e, s1) => (Raise e, s1)
    end.
Proof.
  unfold setup, mbind, M_bind, bind, get, ret, modify. simpl.
  fold (store_bundle args s).
  destruct (setup_logging (ns_log_level args) (store_bundle args s))
    as [[[]|e] s1]; reflexivity.
Qed.

(** [setup_logging] touches the application only. *)
Lemma setup_logging_frame (level : option string) (s : State) :
  configuration (snd (setup_logging level s)) = configuration s
  /\ is_setup (self (snd (setup_logging level s))) = is_setup (self s)
  /\ metrics (self (snd (setup_logging level s))) = metrics (self s)
  /\ proc (snd (setup_logging level s)) = proc s.
Proof.
  destruct (truthy (of_str level)) eqn:T.
  - destruct level as [l|]; [|discriminate T].
    assert (Hne : l <> "").
    { intros ->. discriminate T. }
    destruct (_nameToLevel !! l) as [n|] eqn:E.
    + rewrite (setup_logging_known l n s Hne E). repeat split.
    + rewrite (setup_logging_unknown l s Hne E). repeat split.
  - rewrite (setup_logging_skipped level s T). repeat split.
Qed.

Lemma setup_logging_returns (level : option string) (s : State) :
  level_accepted level = true -> fst (setup_logging level s) = Ret tt.
Proof.
  destruct level as [l|]; [|reflexivity]. unfold level_accepted.
  destruct (String.eqb_spec l "") as [->|Hne]; [reflexivity|]. cbn [orb].
  intros H. apply bool_decide_eq_true in H as [n Hn].
  now rewrite (setup_logging_known l n s Hne Hn).
Qed.

Lemma setup_logging_rejects (level : option string) (s : State) :
  level_accepted level = false ->
  raised (fst (setup_logging level s)) = Some ValueError.
Proof.
  destruct level as [l|]; [|discriminate]. unfold level_accepted.
  destruct (String.eqb_spec l "") as [->|Hne]; [discriminate|]. cbn [orb].
  intros H. apply bool_decide_eq_false in H.
  destruct (_nameToLevel !! l) as [n|] eqn:E.
  - exfalso. apply H. now exists n.
  - now rewrite (setup_logging_unknown l s Hne E).
Qed.

(** C6, as stated, fails for [bogus_bundle]: the attributes are stored,
    then logging initialization raises [ValueError] and [is_setup] stays
    false. *)
Lemma setup_unknown_level_counterexample :
  ~ setup_completes bogus_bundle svc
  /\ raised (fst (setup [Some bogus_bundle] svc)) = Some ValueError
  /\ is_setup (self (snd (setup [Some bogus_bundle] svc))) = false.
Proof.
  assert (E : fst (setup [Some bogus_bundle] svc)
              = Raise (mkExn ValueError "Unknown level: 'Level bogus'"))
    by (vm_compute; reflexivity).
  split; [|split].
  - intros (s1 & _ & H & _). rewrite H in E. discriminate E.
  - now rewrite E.
  - vm_compute. reflexivity.
Qed.

(** C6 (amended): for every explicit bundle [setup(args)] stores host,
    port, debug, log level, strategy flag and thread count exactly as the
    bundle gives them.  When the bundle's log level is absent, empty or a
    level name registered with the logging library, it initializes logging
    on that state, sets [is_setup] to true and returns; for any other
    level name it raises [ValueError] out of logging initialization and
    leaves [is_setup] as it was. *)
Theorem setup_explicit_bundle (args : Namespace) (s : State) :
  configuration (snd (setup [Some args] s)) = bundle_values args
  /\ (level_accepted (ns_log_level args) = true -> setup_completes args s)
  /\ (level_accepted (ns_log_level args) = false ->
      raised (fst (setup [Some args] s)) = Some ValueError
      /\ is_setup (self (snd (setup [Some args] s))) = is_setup (self s)).
Proof.
  assert (Hconf : configuration (snd (setup [Some args] s))
                  = bundle_values args).
  { rewrite setup_bundle_eq.
    destruct (setup_logging_frame (ns_log_level args) (store_bundle args s))
      as (Hf & _).
    destruct (setup_logging (ns_log_level args) (store_bundle args s))
      as [[[]|e] s1]; simpl in Hf; exact Hf. }
  split; [exact Hconf|]. split.
  - intros Hacc.
    pose proof (setup_logging_returns _ (store_bundle args s) Hacc) as Hret.
    assert (Heq := setup_bundle_eq args s).
    destruct (setup_logging (ns_log_level args) (store_bundle args s))
      as [[[]|e] s1] eqn:E; [|discriminate Hret].
    exists s1. split; [exact E|]. split; [exact Heq|].
    split; [exact Hconf|]. now rewrite Heq.
  - intros Hrej.
    pose proof (setup_logging_rejects _ (store_bundle args s) Hrej) as Hr.
    destruct (setup_logging_frame (ns_log_level args) (store_bundle args s))
      as (_ & Hf & _).
    rewrite setup_bundle_eq.
    destruct (setup_logging (ns_log_level args) (store_bundle args s))
      as [[[]|e] s1]; [discriminate Hr|].
    split; [exact Hr | exact Hf].
Qed.

Lemma setup_explicit_bundle_witness :
  setup_completes reactor_bundle svc
  /\ raised (fst (setup [Some bogus_bundle] svc)) = Some ValueError.
Proof.
  split.
  - apply (proj1 (proj2 (setup_explicit_bundle reactor_bundle svc))).
    vm_compute. reflexivity.
  - apply (proj2 (proj2 (setup_explicit_bundle bogus_bundle svc))).
    vm_compute. reflexivity.
Defined.

(** ** What a computation leaves untouched *)

Section Frame.
Context {B : Type} (obs : State -> B).

Lemma keeps_ret {A} (a : A) : keeps obs (ret a).
Proof. intros s. reflexivity. Qed.

Lemma keeps_mret {A} (a : A) : keeps obs (mret a : M A).
Proof. intros s. reflexivity. Qed.

Lemma keeps_raise {A} (e : exn) : keeps obs (@raise A e).
Proof. intros s. reflexivity. Qed.

Lemma keeps_get : keeps obs get.
Proof. intros s. reflexivity. Qed.

Lemma keeps_lift {A} (o : outcome A) : keeps obs (lift o).
Proof. intros s. reflexivity. Qed.

Lemma keeps_modify (f : State -> State) :
  (forall s, obs (f s) = obs s) -> keeps obs (modify f).
Proof. intros H s. apply H. Qed.

Lemma keeps_bind {A C} (m : M A) (k : A -> M C) :
  keeps obs m -> (forall a, keeps obs (k a)) -> keeps obs (m ≫= k).
Proof.
  intros Hm Hk s. unfold mbind, M_bind, bind.
  specialize (Hm s). destruct (m s) as [[a|e] s1]; simpl in *.
  - now rewrite Hk.
  - exact Hm.
Qed.

Lemma keeps_try_except {A} (body : M A) cls handler :
  keeps obs body -> (forall e, keeps obs (handler e)) ->
  keeps obs (try_except body cls handler).
Proof.
  intros Hb Hh s. unfold try_except.
  specialize (Hb s). destruct (body s) as [[a|e] s1]; simpl in *.
  - exact Hb.
  - destruct (isinstance e cls); simpl; [now rewrite Hh | exact Hb].
Qed.

Lemma keeps_if {A} (b : bool) (m1 m2 : M A) :
  keeps obs m1 -> keeps obs m2 -> keeps obs (if b then m1 else m2).
Proof. now destruct b. Qed.
End Frame.

Create HintDb frame.
#[local] Hint Resolve keeps_ret keeps_mret keeps_raise keeps_get keeps_lift
  keeps_bind keeps_try_except keeps_if : frame.

Lemma Logger_log_keeps_settings fname lvl exc args :
  keeps settings (Logger_log fname lvl exc args).
Proof. destruct args; intros s; reflexivity. Qed.

Lemma Flask_add_url_rule_keeps_settings r e v :
  keeps settings (Flask_add_url_rule r e v).
Proof.
  unfold Flask_add_url_rule.
  apply keeps_bind; [now apply keeps_modify|]. intros _.
  apply keeps_bind; [apply keeps_get|]. intros s.
  destruct (view_functions (app (self s)) !! e) as [old|].
  - apply keeps_if; auto with frame.
  - now apply keeps_modify.
Qed.

Lemma metrics_info_keeps_settings nm d labels :
  keeps settings (metrics_info nm d labels).
Proof.
  unfold metrics_info. apply keeps_bind; [apply keeps_get|]. intros s.
  destruct (metrics (self s)); [now apply keeps_modify | apply keeps_raise].
Qed.

Lemma pkg_require_version_keeps {B} (obs : State -> B) nm :
  keeps obs (pkg_require_version nm).
Proof. intros s. reflexivity. Qed.

Lemma setup_prometheus_keeps_settings registry :
  keeps settings (setup_prometheus registry).
Proof.
  unfold setup_prometheus, PrometheusMetrics_new.
  apply keeps_bind.
  - apply keeps_bind; [apply Flask_add_url_rule_keeps_settings|].
    intros _. apply keeps_ret.
  - intros m. apply keeps_bind; [now apply keeps_modify|]. intros _.
    apply keeps_bind; [apply keeps_get|]. intros s.
    apply keeps_bind.
    + apply keeps_try_except; [apply pkg_require_version_keeps|].
      intros _. apply keeps_ret.
    + intros version.
      apply keeps_bind; [apply metrics_info_keeps_settings|].
      intros _. apply Logger_log_keeps_settings.
Qed.

Lemma setup_sentry_keeps_settings dsn :
  keeps settings (setup_sentry dsn).
Proof.
  unfold setup_sentry. apply keeps_bind; [apply keeps_get|]. intros s.
  apply keeps_if; [apply keeps_mret|].
  destruct (if truthy (of_str dsn) then dsn else environ (proc s) !! "SENTRY_DSN");
    [|apply keeps_mret].
  apply keeps_bind; [now apply keeps_modify|]. intros _.
  apply Logger_log_keeps_settings.
Qed.

Lemma init_eq app_or_name registry p :
  __init__ app_or_name registry p
  = wiring registry (initial_state (initial_app app_or_name) p).
Proof. now destruct app_or_name. Qed.

Lemma wiring_keeps_settings registry : keeps settings (wiring registry).
Proof.
  unfold wiring, add_url_rule.
  do 3 (apply keeps_bind; [apply Flask_add_url_rule_keeps_settings|intros _]).
  apply keeps_bind; [apply keeps_get|intros s].
  apply keeps_bind.
  - apply keeps_if; [apply Flask_add_url_rule_keeps_settings|apply keeps_ret].
  - intros _.
    apply keeps_bind; [apply setup_prometheus_keeps_settings|intros _].
    apply setup_sentry_keeps_settings.
Qed.

(** C10: whatever application or name and registry [Gourde] is constructed
    with, and up to the first call of [setup], the object has host
    ['127.0.0.1'], port 8080, debug false, no log level, reactor flag
    false, no thread count and [is_setup] false; the parser of
    [get_argparser] gives, on an empty command line, no host, port 9050 and
    log level ['INFO'], so host, port and log level differ from the
    command-line defaults. *)
Theorem fresh_gourde_attributes (app_or_name : Flask + string)
    (registry : option string) (p : Process) :
  let g := self (snd (__init__ app_or_name registry p)) in
  host g = Some "127.0.0.1"
  /\ port g = 8080
  /\ debug g = false
  /\ log_level g = None
  /\ twisted g = false
  /\ threads g = None
  /\ is_setup g = false
  /\ parse_args (get_argparser None) [] = Ret default_namespace
  /\ host g <> ns_host default_namespace
  /\ port g <> ns_port default_namespace
  /\ log_level g <> ns_log_level default_namespace.
Proof.
  intros g.
  pose proof (wiring_keeps_settings registry
                (initial_state (initial_app app_or_name) p)) as H.
  rewrite <- init_eq in H. subst g.
  unfold settings, configuration in H. simpl in H.
  injection H as Hh Hp Hd Hl Ht Hth Hs.
  rewrite Hh, Hp, Hd, Hl, Ht, Hth, Hs.
  repeat split; discriminate.
Qed.

(** ** Route registration *)

Lemma view_bound_same endpoint v s :
  view_functions (app (self s)) !! endpoint = Some v ->
  view_bound endpoint v s = s.
Proof.
  destruct s as [[a h p d l t th m i] pr]. destruct a as [n sf um vf c lg se].
  simpl. intros H. unfold view_bound, with_app, with_self, set_app. simpl.
  now rewrite (insert_id vf endpoint v H).
Qed.

Lemma Flask_add_url_rule_ret rule endpoint v s s' :
  Flask_add_url_rule rule endpoint v s = (Ret tt, s') ->
  s' = route_registered rule endpoint v s.
Proof.
  unfold Flask_add_url_rule, mbind, M_bind, bind, modify, get.
  fold (rule_added rule endpoint s). unfold route_registered.
  replace (view_functions (app (self (rule_added rule endpoint s))))
    with (view_functions (app (self s))) by reflexivity.
  destruct (view_functions (app (self s)) !! endpoint) as [old|] eqn:E.
  - destruct (bool_decide (old ≠ v)) eqn:D; [discriminate|].
    apply bool_decide_eq_false in D. apply dec_stable in D. subst old.
    intros [= <-]. symmetry. now apply view_bound_same.
  - now intros [= <-].
Qed.

Lemma Flask_add_url_rule_fresh rule endpoint v s :
  view_functions (app (self s)) !! endpoint = None ->
  Flask_add_url_rule rule endpoint v s
  = (Ret tt, route_registered rule endpoint v s).
Proof.
  intros E.
  unfold Flask_add_url_rule, mbind, M_bind, bind, modify, get.
  fold (rule_added rule endpoint s).
  replace (view_functions (app (self (rule_added rule endpoint s))))
    with (view_functions (app (self s))) by reflexivity.
  now rewrite E.
Qed.

Lemma Logger_log_keeps_routes fname lvl exc args :
  keeps routes (Logger_log fname lvl exc args).
Proof. destruct args; intros s; reflexivity. Qed.

Lemma metrics_info_keeps_routes nm d labels :
  keeps routes (metrics_info nm d labels).
Proof.
  unfold metrics_info. apply keeps_bind; [apply keeps_get|]. intros s.
  destruct (metrics (self s)); [now apply keeps_modify | apply keeps_raise].
Qed.

Lemma setup_sentry_keeps_routes dsn : keeps routes (setup_sentry dsn).
Proof.
  unfold setup_sentry. apply keeps_bind; [apply keeps_get|]. intros s.
  apply keeps_if; [apply keeps_mret|].
  destruct (if truthy (of_str dsn) then dsn else environ (proc s) !! "SENTRY_DSN");
    [|apply keeps_mret].
  apply keeps_bind; [now apply keeps_modify|]. intros _.
  apply Logger_log_keeps_routes.
Qed.

Lemma setup_prometheus_eq registry :
  setup_prometheus registry
  = (m ← PrometheusMetrics_new registry; publish_app_info m).
Proof. reflexivity. Qed.

Lemma publish_app_info_keeps_routes m : keeps routes (publish_app_info m).
Proof.
  unfold publish_app_info.
  apply keeps_bind; [now apply keeps_modify|]. intros _.
  apply keeps_bind; [apply keeps_get|]. intros s.
  apply keeps_bind.
  - apply keeps_try_except; [apply pkg_require_version_keeps|].
    intros _. apply keeps_ret.
  - intros version.
    apply keeps_bind; [apply metrics_info_keeps_routes|].
    intros _. apply Logger_log_keeps_routes.
Qed.

Lemma PrometheusMetrics_new_ret registry s m s1 :
  PrometheusMetrics_new registry s = (Ret m, s1) ->
  m = mkMetrics registry []
  /\ s1 = route_registered "/metrics" "prometheus_metrics"
            (view_other "prometheus_metrics") s.
Proof.
  unfold PrometheusMetrics_new. intros H.
  apply bind_ret_inv in H as ([] & s0 & Ha & Hb).
  injection Hb as <- <-. split; [reflexivity|].
  now apply Flask_add_url_rule_ret.
Qed.

Lemma publish_app_info_run m s :
  publish_app_info m s
  = match require_version (proc s) (name (app (self s))) with
    | Ret version => (Ret tt, app_info_published m version s)
    | Raise e =>
        if isinstance e DistributionNotFound
        then (Ret tt, app_info_published m "unknown" s)
        else (Raise e, with_self (set_metrics (Some m)) s)
    end.
Proof.
  unfold publish_app_info, mbind, M_bind, bind, modify, get, try_except,
    pkg_require_version, metrics_info.
  simpl.
  destruct (require_version (proc s) (name (app (self s)))) as [v|e];
    [reflexivity|].
  destruct (isinstance e DistributionNotFound); reflexivity.
Qed.

(** ** Construction by name *)

Lemma init_by_name import_name registry p :
  __init__ (inr import_name) registry p
  = (publish_app_info (mkMetrics registry []);; setup_sentry None)
      (wired import_name p).
Proof. vm_compute. reflexivity. Qed.

Lemma setup_sentry_returns dsn s : fst (setup_sentry dsn s) = Ret tt.
Proof.
  unfold setup_sentry, mbind, M_bind, bind, get.
  destruct (negb (Sentry (proc s))
            || negb (truthy (of_str
                 (if truthy (of_str dsn) then dsn
                  else environ (proc s) !! "SENTRY_DSN")))); [reflexivity|].
  now destruct (if truthy (of_str dsn) then dsn
                else environ (proc s) !! "SENTRY_DSN").
Qed.

Lemma setup_sentry_keeps_metrics dsn :
  keeps (fun s => metrics (self s)) (setup_sentry dsn).
Proof.
  unfold setup_sentry. apply keeps_bind; [apply keeps_get|]. intros s.
  apply keeps_if; [apply keeps_mret|].
  destruct (if truthy (of_str dsn) then dsn else environ (proc s) !! "SENTRY_DSN");
    [|apply keeps_mret].
  apply keeps_bind; [now apply keeps_modify|]. intros _.
  intros s'. reflexivity.
Qed.

(** ** The version of the application *)

(** C9, as stated, fails when the lookup fails with [VersionConflict]:
    the error leaves [setup_prometheus] and the constructor, and no
    [app_info] metric is registered. *)
Lemma version_conflict_counterexample :
  require_version conflicting_process "svc" = Raise conflict
  /\ ~ version_failure_tolerated "svc" None conflicting_process
  /\ fst (__init__ (inr "svc") None conflicting_process) = Raise conflict
  /\ metrics (self (snd (__init__ (inr "svc") None conflicting_process)))
     = Some (mkMetrics None []).
Proof.
  assert (E : fst (__init__ (inr "svc") None conflicting_process)
              = Raise conflict) by (vm_compute; reflexivity).
  split; [reflexivity|]. split; [|split].
  - intros [H _]. rewrite H in E. discriminate E.
  - exact E.
  - vm_compute. reflexivity.
Qed.

(** C9 (amended): when the lookup of the installed version fails with
    [DistributionNotFound], [setup_prometheus] registers [app_info] with
    the version ['unknown'] and returns, and construction by name returns
    normally; when the lookup fails with any other exception, that
    exception leaves [setup_prometheus] and the constructor, and no
    [app_info] metric is registered. *)
Theorem version_lookup_failure (registry : option string) (e : exn) :
  (forall s m s1,
      PrometheusMetrics_new registry s = (Ret m, s1) ->
      require_version (proc s) (name (app (self s))) = Raise e ->
      (isinstance e DistributionNotFound = true ->
       setup_prometheus registry s
       = (Ret tt, app_info_published m "unknown" s1)
       /\ metrics (self (snd (setup_prometheus registry s)))
          = Some (mkMetrics registry [app_info_unknown (name (app (self s)))]))
      /\ (isinstance e DistributionNotFound = false ->
          setup_prometheus registry s
          = (Raise e, with_self (set_metrics (Some m)) s1)
          /\ metrics (self (snd (setup_prometheus registry s)))
             = Some (mkMetrics registry [])))
  /\ (forall import_name p,
      require_version p import_name = Raise e ->
      (isinstance e DistributionNotFound = true ->
       version_failure_tolerated import_name registry p)
      /\ (isinstance e DistributionNotFound = false ->
          fst (__init__ (inr import_name) registry p) = Raise e
          /\ metrics (self (snd (__init__ (inr import_name) registry p)))
             = Some (mkMetrics registry []))).
Proof.
  split.
  - intros s m s1 Hnew Hreq.
    assert (Hrun : setup_prometheus registry s = publish_app_info m s1).
    { rewrite setup_prometheus_eq. now apply bind_run. }
    apply PrometheusMetrics_new_ret in Hnew as [-> ->].
    rewrite Hrun, publish_app_info_run. simpl. rewrite Hreq.
    split; intros ->; split; reflexivity.
  - intros import_name p Hreq.
    unfold version_failure_tolerated. rewrite !init_by_name.
    pose proof (publish_app_info_run (mkMetrics registry [])
                  (wired import_name p)) as Hrun.
    change (require_version (proc (wired import_name p))
              (name (app (self (wired import_name p)))))
      with (require_version p import_name) in Hrun.
    rewrite Hreq in Hrun.
    split; intros He; rewrite He in Hrun.
    + rewrite (bind_run _ _ _ _ _ Hrun).
      split; [apply setup_sentry_returns|].
      now rewrite (setup_sentry_keeps_metrics None).
    + now rewrite (bind_raise _ _ _ _ _ Hrun).
Qed.

Lemma version_lookup_failure_witness :
  version_failure_tolerated "svc" None bare_process
  /\ fst (__init__ (inr "svc") None conflicting_process) = Raise conflict.
Proof.
  split.
  - apply (proj2 (version_lookup_failure None
                    (mkExn DistributionNotFound
                       "The 'svc' distribution was not found"))
             "svc" bare_process); reflexivity.
  - apply (proj2 (version_lookup_failure None conflict)
             "svc" conflicting_process); reflexivity.
Defined.

(** ** The routes of a constructed object *)

Lemma wiring_ret registry a0 p s :
  wiring registry (initial_state a0 p) = (Ret tt, s) ->
  routes s
  = routes (route_registered "/metrics" "prometheus_metrics"
              (view_other "prometheus_metrics") (builtin_registered a0 p)).
Proof.
  unfold wiring, add_url_rule. intros H.
  apply bind_ret_inv in H as ([] & s1 & H1 & H).
  apply Flask_add_url_rule_ret in H1. subst s1.
  apply bind_ret_inv in H as ([] & s2 & H2 & H).
  apply Flask_add_url_rule_ret in H2. subst s2.
  apply bind_ret_inv in H as ([] & s3 & H3 & H).
  apply Flask_add_url_rule_ret in H3.
  apply bind_ret_inv in H as (s3' & s3'' & Hget & H).
  injection Hget as <- <-.
  assert (Hstatic : has_static_folder (app (self s3)) = has_static_folder a0)
    by (now subst s3).
  rewrite Hstatic in H.
  apply bind_ret_inv in H as ([] & s4 & H4 & H).
  assert (Hs4 : s4 = builtin_registered a0 p).
  { unfold builtin_registered. destruct (has_static_folder a0).
    - apply Flask_add_url_rule_ret in H4. now subst.
    - injection H4 as <-. now subst. }
  clear H4. subst s4.
  apply bind_ret_inv in H as ([] & s5 & Hprom & Hsentry).
  rewrite setup_prometheus_eq in Hprom.
  apply bind_ret_inv in Hprom as (m & s4' & Hnew & Hpub).
  apply PrometheusMetrics_new_ret in Hnew as [-> ->].
  pose proof (setup_sentry_keeps_routes None s5) as Hk1.
  rewrite Hsentry in Hk1. simpl in Hk1. rewrite Hk1.
  pose proof (publish_app_info_keeps_routes (mkMetrics registry [])
                (route_registered "/metrics" "prometheus_metrics"
                   (view_other "prometheus_metrics")
                   (builtin_registered a0 p))) as Hk2.
  rewrite Hpub in Hk2. exact Hk2.
Qed.

(** C7: whenever the constructor returns, the URL map of the application
    is the one it had, followed by the rules ['/'], ['/-/healthy'] and
    ['/-/ready'], then ['/favicon.ico'] exactly when the application has a
    static folder, then the exporter's rule; the endpoints are bound to
    the methods [status], [healthy], [ready] and [favicon] of the object;
    and all this holds with [is_setup] still false. *)
Theorem init_registers_routes (app_or_name : Flask + string)
    (registry : option string) (p : Process) (s : State) :
  __init__ app_or_name registry p = (Ret tt, s) ->
  let a0 := initial_app app_or_name in
  let a := app (self s) in
  url_map a
  = (url_map a0 ++ builtin_rules a0 ++ [("/metrics", "prometheus_metrics")])%list
  /\ (("/favicon.ico", "favicon") ∈ builtin_rules a0
      <-> has_static_folder a0 = true)
  /\ view_functions a !! "status" = Some view_status
  /\ view_functions a !! "health" = Some view_healthy
  /\ view_functions a !! "ready" = Some view_ready
  /\ (has_static_folder a0 = true ->
      view_functions a !! "favicon" = Some view_favicon)
  /\ (has_static_folder a0 = false ->
      view_functions a !! "favicon" = view_functions a0 !! "favicon")
  /\ is_setup (self s) = false.
Proof.
  intros Hinit a0 a.
  pose proof (wiring_keeps_settings registry (initial_state a0 p)) as Hset.
  rewrite init_eq in Hinit. fold a0 in Hinit.
  rewrite Hinit in Hset. apply (f_equal snd) in Hset.
  change (is_setup (self s) = false) in Hset. rename Hset into Hsetup.
  apply wiring_ret in Hinit.
  unfold routes in Hinit. fold a in Hinit.
  injection Hinit as Hmap Hviews _.
  rewrite Hmap, Hviews. clear Hmap Hviews. subst a.
  unfold builtin_registered, builtin_rules.
  destruct (has_static_folder a0) eqn:Hstatic; simpl;
    rewrite <- ?app_assoc; simpl.
  - split; [reflexivity|]. split; [|split; [|split; [|split; [|split]]]].
    + split; [reflexivity|]. intros _.
      do 3 apply list_elem_of_further. apply list_elem_of_here.
    + now rewrite !lookup_insert_ne, lookup_insert_eq by done.
    + now rewrite !lookup_insert_ne, lookup_insert_eq by done.
    + now rewrite !lookup_insert_ne, lookup_insert_eq by done.
    + intros _. now rewrite !lookup_insert_ne, lookup_insert_eq by done.
    + split; [discriminate | exact Hsetup].
  - split; [reflexivity|]. split; [|split; [|split; [|split; [|split]]]].
    + split; [|discriminate]. intros Hin.
      repeat (apply elem_of_cons in Hin as [Hin|Hin]; [discriminate Hin|]).
      now apply elem_of_nil in Hin.
    + now rewrite !lookup_insert_ne, lookup_insert_eq by done.
    + now rewrite !lookup_insert_ne, lookup_insert_eq by done.
    + now rewrite !lookup_insert_ne, lookup_insert_eq by done.
    + discriminate.
    + split; [|exact Hsetup]. intros _. now rewrite !lookup_insert_ne by done.
Qed.

Lemma init_registers_routes_witness :
  url_map (app (self svc))
  = [("/static/<path:filename>", "static"); ("/", "status");
     ("/-/healthy", "health"); ("/-/ready", "ready");
     ("/favicon.ico", "favicon"); ("/metrics", "prometheus_metrics")]
  /\ view_functions (app (self svc)) !! "health" = Some view_healthy
  /\ is_setup (self svc) = false.
Proof.
  destruct (init_registers_routes (inr "svc") None bare_process svc)
    as (Hmap & _ & _ & Hhealth & _ & _ & _ & Hsetup).
  - vm_compute. reflexivity.
  - split; [exact Hmap|]. split; [exact Hhealth | exact Hsetup].
Defined.

(** * Further properties *)

(** ** The handlers on any returned value and any raised error *)

(** X1: the handlers test the truth value of what the override returns:
    any true value answers [('OK', 200)], any false one, [None] included,
    answers [('FAIL', 500)]; the state is the one the override left. *)
Theorem handler_truth_value (hooks : Hooks) (s s' : State) (v : pyval) :
  (is_healthy s = (Ret v, s') ->
   healthy s = (Ret (response (truthy v)), s'))
  /\ (is_ready s = (Ret v, s') ->
      ready s = (Ret (response (truthy v)), s')).
Proof.
  split; intros H.
  - unfold healthy. apply (check_response _ _ _ _ H).
  - unfold ready. apply (check_response _ _ _ _ H).
Qed.

Lemma handler_truth_value_witness :
  @healthy (constant_hooks VNone) svc = (Ret (BodyStatus "FAIL" 500), svc)
  /\ @ready (constant_hooks (VStr "up")) svc
     = (Ret (BodyStatus "OK" 200), svc).
Proof.
  split.
  - apply (proj1 (handler_truth_value (constant_hooks VNone) svc svc VNone)).
    reflexivity.
  - apply (proj2 (handler_truth_value (constant_hooks (VStr "up")) svc svc
                    (VStr "up"))).
    reflexivity.
Defined.

(** X2: an error of the override that is not an [Exception], such as
    [KeyboardInterrupt] or [SystemExit], is not caught: it leaves the
    handler as it is, with the state the override left. *)
Theorem handler_passes_non_exception (hooks : Hooks) (s s' : State)
    (e : exn) :
  isinstance e Exception = false ->
  (is_healthy s = (Raise e, s') -> healthy s = (Raise e, s'))
  /\ (is_ready s = (Raise e, s') -> ready s = (Raise e, s')).
Proof.
  intros He. split; intros H.
  - unfold healthy. apply try_except_escapes; [|exact He].
    now apply bind_raise.
  - unfold ready. apply try_except_escapes; [|exact He].
    now apply bind_raise.
Qed.

Lemma handler_passes_non_exception_witness :
  @healthy (raising_hooks (mkExn KeyboardInterrupt "")) svc
  = (Raise (mkExn KeyboardInterrupt ""), svc).
Proof.
  apply (proj1 (handler_passes_non_exception
                  (raising_hooks (mkExn KeyboardInterrupt "")) svc svc
                  (mkExn KeyboardInterrupt "") eq_refl)).
  reflexivity.
Defined.

(** X3: for every error of the override that is an [Exception], of a
    builtin class or of a subclass such as [Error], the handler ends in the
    [TypeError] of [logger.exception()], with the state the override left:
    no record is added and no response is returned. *)
Theorem handler_exception_path (hooks : Hooks) (s s' : State) (e : exn) :
  isinstance e Exception = true ->
  (is_healthy s = (Raise e, s') ->
   healthy s = (Raise exception_without_msg, s'))
  /\ (is_ready s = (Raise e, s') ->
      ready s = (Raise exception_without_msg, s')).
Proof.
  intros He. split; intros H.
  - now apply (healthy_raises s e s').
  - now apply (ready_raises s e s').
Qed.

Lemma handler_exception_path_witness :
  @ready (raising_hooks (mkExn Error "no database")) svc
  = (Raise exception_without_msg, svc).
Proof.
  apply (proj2 (handler_exception_path
                  (raising_hooks (mkExn Error "no database")) svc svc
                  (mkExn Error "no database") eq_refl)).
  reflexivity.
Defined.

(** ** The error monitor *)

Lemma setup_sentry_run dsn s :
  setup_sentry dsn s
  = (Ret tt,
     match resolved_dsn dsn s with
     | Some x =>
         if Sentry (proc s) && truthy (VStr x) then sentry_enabled x s else s
     | None => s
     end).
Proof.
  unfold setup_sentry, resolved_dsn, mbind, M_bind, bind, get.
  destruct (if truthy (of_str dsn) then dsn
            else environ (proc s) !! "SENTRY_DSN") as [x|]; simpl.
  - destruct (Sentry (proc s)); simpl; [|reflexivity].
    destruct (negb (String.eqb x "")); reflexivity.
  - now destruct (Sentry (proc s)).
Qed.

(** X4: [setup_sentry] returns and leaves the whole state as it is when
    [raven] is not importable, whatever DSN is at hand, and also when
    neither the argument nor [SENTRY_DSN] gives a DSN that is not empty:
    without both, no monitor is built and nothing is logged. *)
Theorem setup_sentry_skips (dsn : option string) (s : State) :
  (Sentry (proc s) = false -> setup_sentry dsn s = (Ret tt, s))
  /\ (truthy (of_str dsn) = false ->
      truthy (of_str (environ (proc s) !! "SENTRY_DSN")) = false ->
      setup_sentry dsn s = (Ret tt, s)).
Proof.
  rewrite setup_sentry_run. unfold resolved_dsn. split.
  - intros ->. now destruct (if truthy (of_str dsn) then dsn else _).
  - intros -> Henv.
    destruct (environ (proc s) !! "SENTRY_DSN") as [x|]; [|reflexivity].
    simpl in Henv. simpl. rewrite Henv. now rewrite andb_false_r.
Qed.

Lemma setup_sentry_skips_witness :
  setup_sentry (Some "https://key@sentry.example/2") svc = (Ret tt, svc)
  /\ setup_sentry (Some "")
       (mkState (self svc)
          (mkProcess [] ∅ true (fun _ => Ret "1.2.0") (mkReactor 10 None [])
             [] (fun _ _ => false)))
     = (Ret tt,
        mkState (self svc)
          (mkProcess [] ∅ true (fun _ => Ret "1.2.0") (mkReactor 10 None [])
             [] (fun _ _ => false))).
Proof.
  split.
  - apply (proj1 (setup_sentry_skips (Some "https://key@sentry.example/2")
                    svc)).
    reflexivity.
  - apply (proj2 (setup_sentry_skips (Some "")
                    (mkState (self svc)
                       (mkProcess [] ∅ true (fun _ => Ret "1.2.0")
                          (mkReactor 10 None []) [] (fun _ _ => false)))));
      vm_compute; reflexivity.
Defined.

(** X5: when the constructor by name returns, the error monitor is
    attached exactly when [raven] is importable and [SENTRY_DSN] is set and
    not empty, with that DSN; the log then holds the confirmation of
    Prometheus, followed by that of Sentry when it is attached. *)
Theorem init_by_name_sentry (import_name : string)
    (registry : option string) (p : Process) (s : State) :
  __init__ (inr import_name) registry p = (Ret tt, s) ->
  let on := Sentry p && truthy (of_str (environ p !! "SENTRY_DSN")) in
  sentry (app (self s))
  = (if on then environ p !! "SENTRY_DSN" else None)
  /\ records (logger (app (self s)))
     = (mkLogRecord INFO (VStr "Prometheus is enabled.") false
        :: (if on then [mkLogRecord INFO (VStr "Sentry is enabled.") false]
            else [])).
Proof.
  rewrite init_by_name. intros H.
  apply bind_ret_inv in H as ([] & s5 & Hpub & Hsen).
  rewrite publish_app_info_run in Hpub.
  rewrite setup_sentry_run in Hsen. unfold resolved_dsn in Hsen.
  simpl in Hsen.
  assert (Hs5 : exists v,
             s5 = app_info_published (mkMetrics registry []) v
                    (wired import_name p)).
  { destruct (require_version (proc (wired import_name p))
                (name (app (self (wired import_name p))))) as [v|e].
    - injection Hpub as <-. now exists v.
    - destruct (isinstance e DistributionNotFound); [|discriminate Hpub].
      injection Hpub as <-. now exists "unknown". }
  destruct Hs5 as [v ->]. clear Hpub.
  change (environ (proc (app_info_published (mkMetrics registry []) v
                           (wired import_name p))))
    with (environ p) in Hsen.
  change (Sentry (proc (app_info_published (mkMetrics registry []) v
                          (wired import_name p))))
    with (Sentry p) in Hsen.
  destruct (environ p !! "SENTRY_DSN") as [x|]; simpl.
  - destruct (Sentry p && negb (String.eqb x "")); injection Hsen as <-;
      split; reflexivity.
  - rewrite andb_false_r. injection Hsen as <-. split; reflexivity.
Qed.

Lemma init_by_name_sentry_witness :
  sentry (app (self (snd (__init__ (inr "svc") None monitored_process))))
  = Some "https://key@sentry.example/1".
Proof.
  apply (init_by_name_sentry "svc" None monitored_process
           (snd (__init__ (inr "svc") None monitored_process))).
  vm_compute. reflexivity.
Defined.

(** ** Configuration from the command line and repeated configuration *)

Lemma setup_none_eq (s : State) :
  setup [None] s
  = match parse_args (get_argparser None) (argv (proc s)) with
    | Ret ns => setup [Some ns] s
    | Raise e => (Raise e, s)
    end.
Proof.
  unfold setup, mbind, M_bind, bind, get, lift, ret.
  now destruct (parse_args (get_argparser None) (argv (proc s))).
Qed.

Lemma setup_accepted (args : Namespace) (s : State) :
  level_accepted (ns_log_level args) = true ->
  setup [Some args] s
  = (Ret tt,
     with_self (set_is_setup true)
       (snd (setup_logging (ns_log_level args) (store_bundle args s)))).
Proof.
  intros Hacc. rewrite setup_bundle_eq.
  pose proof (setup_logging_returns _ (store_bundle args s) Hacc) as Hret.
  destruct (setup_logging (ns_log_level args) (store_bundle args s))
    as [[[]|e] s1]; [reflexivity | discriminate Hret].
Qed.

Lemma setup_logging_adds (level : option string) (s : State) :
  handlers (logger (app (self (snd (setup_logging level s)))))
  = (handlers (logger (app (self s))) ++ handlers_added level)%list.
Proof.
  unfold handlers_added. destruct (truthy (of_str level)) eqn:T.
  - destruct level as [l|]; [|discriminate T].
    apply setup_logging_handlers. intros ->. discriminate T.
  - rewrite (setup_logging_skipped level s T). now rewrite app_nil_r.
Qed.

(** X7: with no word on the command line, [setup(None)] returns with no
    host, port 9050, debug off, level [INFO], the default strategy and no
    thread count, one more handler, the threshold at 20 and [is_setup]
    true. *)
Theorem setup_default_command_line (s : State) :
  argv (proc s) = [] ->
  setup [None] s
  = (Ret tt,
     with_self (set_is_setup true)
       (logging_initialized INFO (store_bundle default_namespace s)))
  /\ configuration (snd (setup [None] s))
     = (None, 9050, false, Some "INFO", false, None)
  /\ is_setup (self (snd (setup [None] s))) = true
  /\ lg_level (logger (app (self (snd (setup [None] s))))) = 20
  /\ handlers (logger (app (self (snd (setup [None] s)))))
     = (handlers (logger (app (self s))) ++ [stream_handler])%list.
Proof.
  intros Hargv.
  assert (E : setup [None] s
              = (Ret tt,
                 with_self (set_is_setup true)
                   (logging_initialized INFO
                      (store_bundle default_namespace s)))).
  { rewrite setup_none_eq, Hargv.
    change (parse_args (get_argparser None) []) with (Ret default_namespace).
    cbv beta iota. rewrite setup_bundle_eq.
    change (ns_log_level default_namespace) with (Some "INFO").
    now rewrite (setup_logging_known "INFO" INFO). }
  rewrite E. repeat split.
Qed.

Lemma setup_default_command_line_witness :
  configuration (snd (setup [None] svc))
  = (None, 9050, false, Some "INFO", false, None)
  /\ is_setup (self (snd (setup [None] svc))) = true.
Proof.
  destruct (setup_default_command_line svc eq_refl) as (_ & Hc & Hs & _).
  split; [exact Hc | exact Hs].
Defined.

(** X8: [setup] has no guard against a second call.  After [setup(a)] and
    then [setup(b)], both with accepted levels, the attributes are those
    of [b] alone, and the logger has the handlers it had followed by one
    handler for each of the two calls whose level is not empty. *)
Theorem setup_twice (a b : Namespace) (s : State) :
  level_accepted (ns_log_level a) = true ->
  level_accepted (ns_log_level b) = true ->
  let s1 := snd (setup [Some a] s) in
  let s2 := snd (setup [Some b] s1) in
  fst (setup [Some a] s) = Ret tt
  /\ fst (setup [Some b] s1) = Ret tt
  /\ configuration s2 = bundle_values b
  /\ is_setup (self s2) = true
  /\ handlers (logger (app (self s2)))
     = (handlers (logger (app (self s)))
          ++ handlers_added (ns_log_level a)
          ++ handlers_added (ns_log_level b))%list.
Proof.
  intros Ha Hb s1 s2. subst s2 s1.
  rewrite (setup_accepted a s Ha). cbn [fst snd].
  rewrite (setup_accepted b _ Hb). cbn [fst snd].
  split; [reflexivity|]. split; [reflexivity|].
  destruct (setup_logging_frame (ns_log_level b)
              (store_bundle b (with_self (set_is_setup true)
                 (snd (setup_logging (ns_log_level a) (store_bundle a s))))))
    as (Hconf & _).
  split; [exact Hconf|]. split; [reflexivity|].
  change (handlers (logger (app (self (with_self (set_is_setup true) ?x)))))
    with (handlers (logger (app (self x)))).
  rewrite setup_logging_adds.
  change (handlers (logger (app (self (store_bundle b
            (with_self (set_is_setup true)
               (snd (setup_logging (ns_log_level a) (store_bundle a s)))))))))
    with (handlers (logger (app (self
            (snd (setup_logging (ns_log_level a) (store_bundle a s))))))).
  rewrite setup_logging_adds. now rewrite <- app_assoc.
Qed.

Lemma setup_twice_witness :
  configuration (snd (setup [Some default_namespace]
                        (snd (setup [Some reactor_bundle] svc))))
  = bundle_values default_namespace
  /\ handlers (logger (app (self
       (snd (setup [Some default_namespace]
               (snd (setup [Some reactor_bundle] svc)))))))
     = [stream_handler; stream_handler].
Proof.
  destruct (setup_twice reactor_bundle default_namespace svc eq_refl eq_refl)
    as (_ & _ & Hc & _ & Hh).
  split; [exact Hc | exact Hh].
Defined.

Lemma setup_logging_keeps_surroundings (level : option string) :
  keeps surroundings (setup_logging level).
Proof.
  intros s. destruct (truthy (of_str level)) eqn:T.
  - destruct level as [l|]; [|discriminate T].
    assert (Hne : l <> "").
    { intros ->. discriminate T. }
    destruct (_nameToLevel !! l) as [n|] eqn:E.
    + now rewrite (setup_logging_known l n s Hne E).
    + now rewrite (setup_logging_unknown l s Hne E).
  - now rewrite (setup_logging_skipped level s T).
Qed.

(** X9: however [setup] is called and however it ends, it leaves the
    routes and their views, the static folder, the metrics handle, the
    error monitor and the process (reactor and servers included) as they
    were: configuration changes attributes and logging only. *)
Theorem setup_keeps_surroundings (actuals : list (option Namespace))
    (s : State) :
  surroundings (snd (setup actuals s)) = surroundings s.
Proof.
  assert (Hsome : forall args,
             surroundings (snd (setup [Some args] s)) = surroundings s).
  { intros args. rewrite setup_bundle_eq.
    pose proof (setup_logging_keeps_surroundings (ns_log_level args)
                  (store_bundle args s)) as Hk.
    destruct (setup_logging (ns_log_level args) (store_bundle args s))
      as [[[]|e] s1]; exact Hk. }
  destruct actuals as [|[args|] [|more rest]]; try reflexivity.
  - apply Hsome.
  - rewrite setup_none_eq.
    destruct (parse_args (get_argparser None) (argv (proc s))) as [ns|e];
      [apply Hsome | reflexivity].
Qed.

(** ** Runs of a configured object *)

(** X10: on a configured object, with options that repeat none of the
    keywords the call gives itself, [run] starts exactly one server and
    leaves the attributes alone: the engine's own server when the reactor
    flag is off, with the reactor untouched, and one reactor run when the
    flag is on and the thread count is one the reactor accepts, with no
    call of the engine's server.  On an object that is not configured it
    starts none, raises [TypeError], and changes nothing. *)
Theorem run_starts_one_server (options : list (string * pyval)) (s : State) :
  (is_setup (self s) = true -> twisted (self s) = false ->
   keyword_collision ["host"; "port"; "debug"; "threaded"] options = false ->
   fst (run options s) = Ret tt
   /\ self (snd (run options s)) = self s
   /\ length (served (proc (snd (run options s))))
      = S (length (served (proc s)))
   /\ reactor (proc (snd (run options s))) = reactor (proc s))
  /\ (is_setup (self s) = true -> twisted (self s) = true ->
      threads_accepted (threads (self s)) = true ->
      keyword_collision ["host"; "port"; "debug"] options = false ->
      fst (run options s) = Ret tt
      /\ self (snd (run options s)) = self s
      /\ length (reactor_runs (reactor (proc (snd (run options s)))))
         = S (length (reactor_runs (reactor (proc s))))
      /\ served (proc (snd (run options s))) = served (proc s))
  /\ (is_setup (self s) = false ->
      run options s = (Raise setup_without_args, s)).
Proof.
  split; [|split; [|apply run_unconfigured]].
  - intros Hs Ht _. rewrite (run_configured options s Hs), Ht.
    rewrite run_with_werkzeug_eq. cbn [fst snd].
    split; [reflexivity|]. split; [reflexivity|]. split; [|reflexivity].
    simpl. rewrite length_app. simpl. lia.
  - intros Hs Ht Hth Hopt. rewrite (run_configured options s Hs), Ht.
    rewrite (run_with_twisted_eq options s Hth Hopt). unfold reactor_started.
    cbn [fst snd].
    split; [reflexivity|]. split; [reflexivity|]. split; [|reflexivity].
    simpl. rewrite length_app. simpl. lia.
Qed.

Lemma run_starts_one_server_witness :
  length (served (proc (snd (run [] (snd (setup [Some default_namespace]
                                            svc))))))
  = 1%nat
  /\ length (reactor_runs (reactor (proc
       (snd (run [] (snd (setup [Some reactor_bundle] svc)))))))
     = 1%nat
  /\ run [] svc = (Raise setup_without_args, svc).
Proof.
  destruct (run_starts_one_server []
              (snd (setup [Some default_namespace] svc)))
    as (Hw & _ & _).
  destruct (run_starts_one_server [] (snd (setup [Some reactor_bundle] svc)))
    as (_ & Ht & _).
  destruct (run_starts_one_server [] svc) as (_ & _ & Hu).
  split; [|split].
  - apply Hw; vm_compute; reflexivity.
  - apply Ht; vm_compute; reflexivity.
  - apply Hu. reflexivity.
Defined.

(** X11: [setup(args)] followed by [run] serves what the bundle says, for
    options that repeat none of the keywords the call gives itself.  With
    an accepted level and the reactor flag off, the engine's server is
    called with the bundle's host, port and debug flag, threaded exactly
    when the bundle's thread count is positive; with the flag on and a
    thread count the reactor accepts, the reactor run has the bundle's
    host, port and debug flag. *)
Theorem setup_then_run (args : Namespace) (options : list (string * pyval))
    (s : State) :
  level_accepted (ns_log_level args) = true ->
  (ns_twisted args = false ->
   keyword_collision ["host"; "port"; "debug"; "threaded"] options = false ->
   fst ((setup [Some args];; run options) s) = Ret tt
   /\ last_served (snd ((setup [Some args];; run options) s))
      = Some (mkServerRun (ns_host args) (ns_port args) (ns_debug args)
                (match ns_threads args with
                 | Some n => bool_decide (0 < n)
                 | None => false
                 end) options))
  /\ (ns_twisted args = true ->
      threads_accepted (ns_threads args) = true ->
      keyword_collision ["host"; "port"; "debug"] options = false ->
      fst ((setup [Some args];; run options) s) = Ret tt
      /\ exists r,
          last_reactor_run (snd ((setup [Some args];; run options) s))
          = Some r
          /\ rr_host r = ns_host args
          /\ rr_port r = ns_port args
          /\ rr_debug r = ns_debug args
          /\ rr_options r = options).
Proof.
  intros Hacc.
  pose proof (setup_accepted args s Hacc) as Hsetup.
  destruct (setup_logging_frame (ns_log_level args) (store_bundle args s))
    as (Hconf & _).
  set (s1 := snd (setup_logging (ns_log_level args) (store_bundle args s)))
    in *.
  rewrite (bind_run _ _ _ _ _ Hsetup).
  change (configuration (with_self (set_is_setup true) s1)
          = bundle_values args) in Hconf.
  assert (Hs : is_setup (self (with_self (set_is_setup true) s1)) = true)
    by reflexivity.
  clear Hsetup. generalize dependent (with_self (set_is_setup true) s1).
  clear s1. intros s2 Hconf Hs.
  rewrite (run_configured options s2 Hs).
  unfold configuration, bundle_values in Hconf.
  injection Hconf as Hh Hp Hd _ Ht Hth.
  rewrite Ht. split.
  - intros -> _. rewrite run_with_werkzeug_eq. cbn [fst snd].
    split; [reflexivity|].
    unfold last_served. simpl. rewrite last_snoc, Hh, Hp, Hd, Hth.
    do 2 f_equal. destruct (ns_threads args) as [n|]; [|reflexivity].
    destruct (Z.gtb_spec n 0); symmetry;
      [apply bool_decide_eq_true | apply bool_decide_eq_false]; lia.
  - intros -> Hacc2 Hopt. rewrite <- Hth in Hacc2.
    rewrite (run_with_twisted_eq options s2 Hacc2 Hopt).
    unfold reactor_started. cbn [fst snd].
    split; [reflexivity|].
    eexists. split; [unfold last_reactor_run; simpl; apply last_snoc|].
    simpl. now rewrite Hh, Hp, Hd.
Qed.

Lemma setup_then_run_witness :
  last_served (snd ((setup [Some default_namespace];; run []) svc))
  = Some (mkServerRun None 9050 false false [])
  /\ exists r,
      last_reactor_run (snd ((setup [Some reactor_bundle];; run []) svc))
      = Some r
      /\ rr_port r = 9050.
Proof.
  destruct (setup_then_run default_namespace [] svc eq_refl) as (Hw & _).
  destruct (setup_then_run reactor_bundle [] svc eq_refl) as (_ & Ht).
  destruct (Hw eq_refl eq_refl) as (_ & Hserved).
  destruct (Ht eq_refl eq_refl eq_refl) as (_ & r & Hlast & _ & Hport & _).
  split; [exact Hserved|]. exists r. split; [exact Hlast | exact Hport].
Defined.

(** X12: a negative thread count stops [run_with_twisted]: the reactor's
    pool refuses it with [AssertionError] before the log is redirected and
    before anything starts, and the state is unchanged, while
    [run_with_werkzeug] reads the same count as not threaded.  A count of 0
    or no count leaves the pool size the reactor starts with as it was, and
    an absent or empty log level leaves the reactor's log where it was. *)
Theorem twisted_thread_count_edges (options : list (string * pyval))
    (s : State) :
  (forall n, threads (self s) = Some n -> n < 0 ->
     run_with_twisted options s = (Raise pool_assertion, s)
     /\ (keyword_collision ["host"; "port"; "debug"; "threaded"] options
         = false ->
         sr_threaded <$> last_served (snd (run_with_werkzeug options s))
         = Some false))
  /\ (keyword_collision ["host"; "port"; "debug"] options = false ->
      threads (self s) = None \/ threads (self s) = Some 0 ->
      exists r,
        last_reactor_run (snd (run_with_twisted options s)) = Some r
        /\ rr_pool_size r = pool_size (reactor (proc s)))
  /\ (keyword_collision ["host"; "port"; "debug"] options = false ->
      threads_accepted (threads (self s)) = true ->
      truthy (of_str (log_level (self s))) = false ->
      exists r,
        last_reactor_run (snd (run_with_twisted options s)) = Some r
        /\ rr_log r = log_observer (reactor (proc s))).
Proof.
  split; [|split].
  - intros n Hn Hneg. split; [now apply (run_with_twisted_negative _ _ n)|].
    intros _. rewrite run_with_werkzeug_eq. unfold last_served. simpl.
    rewrite last_snoc, Hn. simpl. f_equal.
    destruct (Z.gtb_spec n 0); [lia | reflexivity].
  - intros Hopt Hth.
    assert (Hacc : threads_accepted (threads (self s)) = true)
      by (destruct Hth as [-> | ->]; reflexivity).
    rewrite (run_with_twisted_eq options s Hacc Hopt). unfold reactor_started.
    eexists. split; [unfold last_reactor_run; simpl; apply last_snoc|].
    cbn [rr_pool_size]. unfold pool_at_start.
    destruct Hth as [-> | ->]; reflexivity.
  - intros Hopt Hacc Hlog.
    rewrite (run_with_twisted_eq options s Hacc Hopt). unfold reactor_started.
    eexists. split; [unfold last_reactor_run; simpl; apply last_snoc|].
    cbn [rr_log]. unfold log_at_start. now rewrite Hlog.
Qed.

Lemma twisted_thread_count_edges_witness :
  run_with_twisted [] (with_self (set_threads (Some (-2))) svc_twisted)
  = (Raise pool_assertion, with_self (set_threads (Some (-2))) svc_twisted)
  /\ sr_threaded <$>
       last_served
         (snd (run_with_werkzeug []
                 (with_self (set_threads (Some (-2))) svc_twisted)))
     = Some false.
Proof.
  destruct (twisted_thread_count_edges []
              (with_self (set_threads (Some (-2))) svc_twisted))
    as (Hneg & _).
  destruct (Hneg (-2) eq_refl ltac:(lia)) as [Hraise Hserved].
  split; [exact Hraise | apply Hserved; reflexivity].
Defined.

(** ** The version metric *)

(** X13: when the exporter attaches and the version lookup answers [v],
    [setup_prometheus] returns, and the handle it keeps is the attached
    one with [app_info], labelled with that version and the application's
    name, added after the metrics the handle already has; one info record
    is logged after the records already there. *)
Theorem version_found (reg : option string) (s s1 : State)
    (m : PrometheusMetrics) (v : string) :
  PrometheusMetrics_new reg s = (Ret m, s1) ->
  require_version (proc s) (name (app (self s))) = Ret v ->
  setup_prometheus reg s = (Ret tt, app_info_published m v s1)
  /\ (exists m',
        metrics (self (snd (setup_prometheus reg s))) = Some m'
        /\ registry m' = registry m
        /\ infos m'
           = (infos m
                ++ [mkInfo "app_info" "Application info"
                      [("version", v);
                       ("appname", name (app (self s)))]])%list)
  /\ records (logger (app (self (snd (setup_prometheus reg s)))))
     = (records (logger (app (self s)))
          ++ [mkLogRecord INFO (VStr "Prometheus is enabled.") false])%list.
Proof.
  intros Hnew Hreq.
  assert (Hrun : setup_prometheus reg s = publish_app_info m s1).
  { rewrite setup_prometheus_eq. now apply bind_run. }
  apply PrometheusMetrics_new_ret in Hnew as [-> ->].
  rewrite Hrun, publish_app_info_run. simpl. rewrite Hreq.
  split; [reflexivity|]. split; [|reflexivity].
  eexists. split; [reflexivity|]. split; reflexivity.
Qed.

Lemma version_found_witness :
  exists m',
    metrics (self (snd (setup_prometheus (Some "test-registry")
                          (initial_state (Flask_new "svc")
                             monitored_process))))
    = Some m'
    /\ last (infos m')
       = Some (mkInfo "app_info" "Application info"
                 [("version", "1.2.0"); ("appname", "svc")]).
Proof.
  destruct (version_found (Some "test-registry")
              (initial_state (Flask_new "svc") monitored_process)
              (route_registered "/metrics" "prometheus_metrics"
                 (view_other "prometheus_metrics")
                 (initial_state (Flask_new "svc") monitored_process))
              (mkMetrics (Some "test-registry") []) "1.2.0"
              ltac:(vm_compute; reflexivity) eq_refl)
    as (_ & (m' & Hm & _ & Hinfos) & _).
  exists m'. split; [exact Hm|]. rewrite Hinfos. reflexivity.
Defined.

(** ** More on logging setup *)

(** X15: with a non-empty level [setup_logging] always sets the handler
    policy of the application to ['never'], leaving every other
    configuration key alone, and turns propagation on; it logs
    ['Logging initialized.'] after the records already there when the level
    name is registered, and logs nothing when it is not; host, port and
    the other settings of the object are untouched either way. *)
Theorem setup_logging_policy (l : string) (s : State) :
  l <> "" ->
  let s' := snd (setup_logging (Some l) s) in
  config (app (self s')) !! "LOGGER_HANDLER_POLICY" = Some (VStr "never")
  /\ (forall k, k <> "LOGGER_HANDLER_POLICY" ->
      config (app (self s')) !! k = config (app (self s)) !! k)
  /\ propagate (logger (app (self s'))) = true
  /\ (is_Some (_nameToLevel !! l) ->
      records (logger (app (self s')))
      = (records (logger (app (self s)))
           ++ [mkLogRecord INFO (VStr "Logging initialized.") false])%list)
  /\ (_nameToLevel !! l = None ->
      records (logger (app (self s'))) = records (logger (app (self s))))
  /\ settings s' = settings s.
Proof.
  intros Hne s'. subst s'.
  destruct (_nameToLevel !! l) as [n|] eqn:E.
  - rewrite (setup_logging_known l n s Hne E). simpl.
    split; [apply lookup_insert_eq|].
    split; [intros k Hk; now apply lookup_insert_ne|].
    split; [reflexivity|]. split; [reflexivity|].
    split; [discriminate | reflexivity].
  - rewrite (setup_logging_unknown l s Hne E). simpl.
    split; [apply lookup_insert_eq|].
    split; [intros k Hk; now apply lookup_insert_ne|].
    split; [reflexivity|]. split; [intros [? [=]]|].
    split; reflexivity.
Qed.

Lemma setup_logging_policy_witness :
  config (app (self (snd (setup_logging (Some "WARNING") svc))))
    !! "LOGGER_HANDLER_POLICY" = Some (VStr "never")
  /\ propagate (logger (app (self (snd (setup_logging (Some "WARNING") svc)))))
     = true.
Proof.
  destruct (setup_logging_policy "WARNING" svc ltac:(discriminate))
    as (Hp & _ & Hprop & _).
  split; [exact Hp | exact Hprop].
Defined.

Lemma setup_logging_each_cons l levels s :
  setup_logging_each (l :: levels) s
  = setup_logging_each levels (snd (setup_logging (Some l) s)).
Proof. reflexivity. Qed.

(** X16: nothing ever detaches a handler: after [setup_logging] is called
    once for each of any number of non-empty levels, registered or not,
    the logger has the handlers it started with followed by one stream
    handler for each call. *)
Theorem setup_logging_each_handlers (levels : list string) (s : State) :
  Forall (fun l => l <> "") levels ->
  handlers (logger (app (self (setup_logging_each levels s))))
  = (handlers (logger (app (self s)))
       ++ replicate (length levels) stream_handler)%list.
Proof.
  intros Hall. revert s.
  induction Hall as [|l levels Hne _ IH]; intros s.
  - simpl. now rewrite app_nil_r.
  - rewrite setup_logging_each_cons, IH, (setup_logging_handlers l s Hne).
    now rewrite <- app_assoc.
Qed.

Lemma setup_logging_each_handlers_witness :
  handlers (logger (app (self
    (setup_logging_each ["INFO"; "bogus"; "DEBUG"] svc))))
  = [stream_handler; stream_handler; stream_handler].
Proof.
  apply (setup_logging_each_handlers ["INFO"; "bogus"; "DEBUG"] svc).
  repeat constructor; discriminate.
Defined.

(** ** The favicon view *)

Lemma Logger_log_keeps_proc fname lvl exc args :
  keeps proc (Logger_log fname lvl exc args).
Proof. destruct args; intros s; reflexivity. Qed.

Lemma Flask_add_url_rule_keeps_proc r e v :
  keeps proc (Flask_add_url_rule r e v).
Proof.
  unfold Flask_add_url_rule.
  apply keeps_bind; [now apply keeps_modify|]. intros _.
  apply keeps_bind; [apply keeps_get|]. intros s.
  destruct (view_functions (app (self s)) !! e) as [old|].
  - apply keeps_if; auto with frame.
  - now apply keeps_modify.
Qed.

Lemma metrics_info_keeps_proc nm d labels :
  keeps proc (metrics_info nm d labels).
Proof.
  unfold metrics_info. apply keeps_bind; [apply keeps_get|]. intros s.
  destruct (metrics (self s)); [now apply keeps_modify | apply keeps_raise].
Qed.

Lemma setup_prometheus_keeps_proc registry :
  keeps proc (setup_prometheus registry).
Proof.
  unfold setup_prometheus, PrometheusMetrics_new.
  apply keeps_bind.
  - apply keeps_bind; [apply Flask_add_url_rule_keeps_proc|].
    intros _. apply keeps_ret.
  - intros m. apply keeps_bind; [now apply keeps_modify|]. intros _.
    apply keeps_bind; [apply keeps_get|]. intros s.
    apply keeps_bind.
    + apply keeps_try_except; [apply pkg_require_version_keeps|].
      intros _. apply keeps_ret.
    + intros version.
      apply keeps_bind; [apply metrics_info_keeps_proc|].
      intros _. apply Logger_log_keeps_proc.
Qed.

Lemma setup_sentry_keeps_proc dsn : keeps proc (setup_sentry dsn).
Proof.
  unfold setup_sentry. apply keeps_bind; [apply keeps_get|]. intros s.
  apply keeps_if; [apply keeps_mret|].
  destruct (if truthy (of_str dsn) then dsn else environ (proc s) !! "SENTRY_DSN");
    [|apply keeps_mret].
  apply keeps_bind; [now apply keeps_modify|]. intros _.
  apply Logger_log_keeps_proc.
Qed.

Lemma wiring_keeps_proc registry : keeps proc (wiring registry).
Proof.
  unfold wiring, add_url_rule.
  do 3 (apply keeps_bind; [apply Flask_add_url_rule_keeps_proc|intros _]).
  apply keeps_bind; [apply keeps_get|intros s].
  apply keeps_bind.
  - apply keeps_if; [apply Flask_add_url_rule_keeps_proc|apply keeps_ret].
  - intros _.
    apply keeps_bind; [apply setup_prometheus_keeps_proc|intros _].
    apply setup_sentry_keeps_proc.
Qed.

(** X17: whenever the constructor returns for a given application with a
    static folder, the [favicon] view hands the file ['favicon.ico'] of
    that very folder, with the icon MIME type, to the engine: it answers
    with the file when that is a regular file and raises [NotFound] when
    it is not, and leaves the state alone either way. *)
Theorem favicon_after_construction (a : Flask) (registry : option string)
    (p : Process) (s : State) (d : string) :
  __init__ (inl a) registry p = (Ret tt, s) ->
  static_folder a = Some d ->
  (isfile p d "favicon.ico" = true ->
   favicon s
   = (Ret (SendFromDirectory (Some d) "favicon.ico"
             "image/vnd.microsoft.icon"), s))
  /\ (isfile p d "favicon.ico" = false ->
      favicon s = (Raise (mkExn NotFound "404 Not Found"), s)).
Proof.
  intros Hinit Hd. rewrite init_eq in Hinit.
  pose proof (wiring_keeps_proc registry (initial_state (initial_app (inl a)) p))
    as Hproc.
  rewrite Hinit in Hproc. change (proc s = p) in Hproc.
  apply wiring_ret in Hinit. apply (f_equal snd) in Hinit.
  assert (Hs : static_folder (app (self s)) = Some d).
  { change (static_folder (app (self s))) with (snd (routes s)).
    rewrite Hinit. unfold builtin_registered.
    destruct (has_static_folder (initial_app (inl a))); exact Hd. }
  unfold favicon, send_from_directory, mbind, M_bind, bind, get, ret, raise.
  rewrite Hs, Hproc. split; intros ->; reflexivity.
Qed.

Lemma favicon_after_construction_witness :
  favicon (snd (__init__ (inl site_app) None site_process))
  = (Ret (SendFromDirectory (Some "/srv/site/static") "favicon.ico"
            "image/vnd.microsoft.icon"),
     snd (__init__ (inl site_app) None site_process))
  /\ favicon (snd (__init__ (inl site_app) None bare_process))
     = (Raise (mkExn NotFound "404 Not Found"),
        snd (__init__ (inl site_app) None bare_process)).
Proof.
  split.
  - apply (proj1 (favicon_after_construction site_app None site_process
                    (snd (__init__ (inl site_app) None site_process))
                    "/srv/site/static" ltac:(vm_compute; reflexivity)
                    eq_refl)).
    reflexivity.
  - apply (proj2 (favicon_after_construction site_app None bare_process
                    (snd (__init__ (inl site_app) None bare_process))
                    "/srv/site/static" ltac:(vm_compute; reflexivity)
                    eq_refl)).
    reflexivity.
Defined.
